(** * dual_measurement_sensor: signal conditioning of a temperature and a
      presence stream

    A shallow embedding of the MQTT message handlers of
    [custom_components/dual_measurement_sensor/__init__.py] (the closures
    [_extract_by_path], [_handle_temp] and [_handle_presence] of
    [async_setup_entry]) and of [DualTempSensor.native_value] of [sensor.py].

    Python values are modelled as the interpreter has them: a [float] is an
    IEEE 754 binary64 number (Rocq's primitive [float]), an [int] is a [Z], a
    [str] is a [string] of characters below U+0100, a [dict] produced by
    [json.loads] is the list of its items in insertion order.  The dictionary
    [hass.data[DOMAIN][entry.entry_id]] is a record that the handlers take
    and return; an exception that leaves a handler is a [Raised] outcome. *)

From Stdlib Require Import ZArith List Bool String Ascii Lia Floats.
Import ListNotations.

Set Warnings "-inexact-float,-register-all".

Local Open Scope Z_scope.

(** ** Python numbers *)

Module PyNum.

(** The exact value of a finite binary64 number is [m * 2 ^ e]; Python
    compares a [float] with an [int] on exact values, without rounding the
    integer.  [x >= n]: *)
Definition float_ge_int (x : float) (n : Z) : bool :=
  match Prim2SF x with
  | S754_nan => false
  | S754_infinity s => negb s
  | S754_zero _ => n <=? 0
  | S754_finite s m e =>
      let v := cond_Zopp s (Z.pos m) in
      if 0 <=? e then n <=? v * 2 ^ e else n * 2 ^ (- e) <=? v
  end.

(** [x < n] *)
Definition float_lt_int (x : float) (n : Z) : bool :=
  match Prim2SF x with
  | S754_nan => false
  | S754_infinity s => s
  | S754_zero _ => 0 <? n
  | S754_finite s m e =>
      let v := cond_Zopp s (Z.pos m) in
      if 0 <=? e then v * 2 ^ e <? n else v <? n * 2 ^ (- e)
  end.

(** [x >= y] on two floats: false as soon as one of them is a NaN. *)
Definition float_ge (x y : float) : bool := PrimFloat.leb y x.

(** [float(n)] for an [int]: the nearest binary64 number, ties to even;
    [OverflowError] ([None]) when that is not finite. *)
Definition float_of_int (n : Z) : option float :=
  match binary_normalize prec emax n 0 false with
  | S754_infinity _ | S754_nan => None
  | sf => Some (SF2Prim sf)
  end.

(** The float branch of the built-in [sum] (CPython 3.12 and later, which
    Home Assistant runs on): Neumaier's compensated summation with the
    running total [f] and the compensation [c]. *)
Fixpoint sum_floats (f c : float) (l : list float) : float :=
  match l with
  | [] =>
      if negb (PrimFloat.eqb c 0) && PrimFloat.is_finite c
      then PrimFloat.add f c else f
  | x :: r =>
      let t := PrimFloat.add f x in
      let c' :=
        if PrimFloat.leb (PrimFloat.abs x) (PrimFloat.abs f)
        then PrimFloat.add c (PrimFloat.add (PrimFloat.sub f t) x)
        else PrimFloat.add c (PrimFloat.add (PrimFloat.sub x t) f) in
      sum_floats t c' r
  end.

(** [sum(l)] for a sequence of floats: the start value is the [int] 0, to
    which the first item is added as a float. *)
Definition sum (l : list float) : float :=
  match l with
  | [] => 0%float
  | x :: r => sum_floats (PrimFloat.add 0 x) 0 r
  end.

End PyNum.

(** ** Outcomes of a call *)

Inductive exn : Type :=
| ZeroDivisionError
| ValueError.

Inductive outcome (A : Type) : Type :=
| Returned (a : A)
| Raised (e : exn).

Arguments Returned {A} a.
Arguments Raised {A} e.

(** [len(d)] as the float a division converts it to: the length of a
    container is below [2 ^ 63], so the conversion is finite. *)
Definition float_of_len (n : nat) : float :=
  SF2Prim (binary_normalize prec emax (Z.of_nat n) 0 false).

(** [x / len(d)] for a float [x]. *)
Definition truediv_len (x : float) (n : nat) : outcome float :=
  match n with
  | O => Raised ZeroDivisionError
  | _ => Returned (PrimFloat.div x (float_of_len n))
  end.

(** ** Python strings *)

Module PyStr.

Local Open Scope string_scope.

Definition code (c : ascii) : N := N_of_ascii c.

(** [c.isspace()] for the characters below U+0100. *)
Definition isspace (c : ascii) : bool :=
  let n := code c in
  ((9 <=? n) && (n <=? 13) || (28 <=? n) && (n <=? 32)
   || (n =? 133) || (n =? 160))%N.

Fixpoint lstrip (s : string) : string :=
  match s with
  | String c r => if isspace c then lstrip r else s
  | EmptyString => EmptyString
  end.

(** [rstrip s] drops the trailing white space: a character is kept when it
    is not white space or when something is kept after it. *)
Fixpoint rstrip (s : string) : string :=
  match s with
  | EmptyString => EmptyString
  | String c r =>
      match rstrip r with
      | EmptyString => if isspace c then EmptyString else String c EmptyString
      | r' => String c r'
      end
  end.

(** [s.strip()] *)
Definition strip (s : string) : string := rstrip (lstrip s).

(** [c.lower()] for the characters below U+0100. *)
Definition lower_char (c : ascii) : ascii :=
  let n := code c in
  if ((65 <=? n) && (n <=? 90)
      || (192 <=? n) && (n <=? 222) && negb (n =? 215))%N
  then ascii_of_N (n + 32) else c.

(** [s.lower()] *)
Fixpoint lower (s : string) : string :=
  match s with
  | EmptyString => EmptyString
  | String c r => String (lower_char c) (lower r)
  end.

(** [s in t] for a tuple [t] of strings. *)
Definition mem (s : string) (t : list string) : bool :=
  existsb (String.eqb s) t.

(** [s.split(sep)] for a one-character separator: the pieces between the
    separators, at least one piece. *)
Fixpoint split (sep : ascii) (s : string) : list string :=
  match s with
  | EmptyString => [EmptyString]
  | String c r =>
      if Ascii.eqb c sep then EmptyString :: split sep r
      else match split sep r with
           | p :: ps => String c p :: ps
           | [] => [String c EmptyString]
           end
  end.

End PyStr.

(** ** Decoded JSON

    What [json.loads] returns: [null] is Python's [None], a number without
    fraction and exponent is an [int], any other number a [float], an object
    a [dict] (here the list of its items, each key once). *)

Inductive json : Type :=
| JNone
| JBool (b : bool)
| JInt (n : Z)
| JFloat (x : float)
| JStr (s : string)
| JList (l : list json)
| JDict (d : list (string * json)).

(** [d.get(k)] on the items of a dict; [k in d] is [dict_get d k <> None]. *)
Fixpoint dict_get (d : list (string * json)) (k : string) : option json :=
  match d with
  | [] => None
  | (k', v) :: r => if String.eqb k k' then Some v else dict_get r k
  end.

Definition is_none (v : json) : bool :=
  match v with JNone => true | _ => false end.

(** ** The configuration entry and the shared state *)

(** [const.py] *)
Definition DEFAULT_TEMP_WINDOW : Z := 5.
Definition DEFAULT_TEMP_MIN_DELTA : float := 0.1%float.
Definition DEFAULT_DEBOUNCE_MS : Z := 300.
Definition DEFAULT_HOLD_MS : Z := 5000.

(** [entry.data]: the three required keys, and the optional ones, [None]
    when the key is absent. *)
Record entry_data : Type := {
  CONF_DEVICE_ID : string;
  CONF_TEMP_TOPIC : string;
  CONF_PRESENCE_TOPIC : string;
  CONF_TEMP_JSON_PATH : option string;
  CONF_TEMP_WINDOW : option Z;
  CONF_TEMP_MIN_DELTA : option float;
  CONF_DEBOUNCE_MS : option Z;
  CONF_HOLD_MS : option Z
}.

(** [data.get(key, default)] *)
Definition get {A : Type} (v : option A) (default : A) : A :=
  match v with Some a => a | None => default end.

(** [collections.deque(maxlen=n)] *)
Record deque : Type := {
  maxlen : nat;
  items : list float
}.

(** [d.append(x)]: the item goes to the right end, and a deque longer than
    [maxlen] loses its leftmost item. *)
Definition append (d : deque) (x : float) : deque :=
  let l := (items d ++ [x])%list in
  {| maxlen := maxlen d;
     items := if (maxlen d <? List.length l)%nat then tl l else l |}.

(** The dictionary [filt]. *)
Record filters : Type := {
  temp_window : Z;
  temp_min_delta : float;
  temp_samples : deque;
  last_published_temp : option float;
  presence_debounce_ms : Z;
  presence_hold_ms : Z;
  presence_state : bool;
  presence_last_on_ms : float;
  presence_last_change_ms : float
}.

(** An entity's bound method [async_write_ha_state], by the entity it
    belongs to. *)
Definition callback : Type := nat.

(** [hass.data[DOMAIN][entry.entry_id]] *)
Record entry_state : Type := {
  st_filters : filters;
  device_id : string;
  temp_topic : string;
  presence_topic : string;
  last_temp_avg : option float;
  listeners : list callback
}.

(** The part of the host the handlers act on: the entry's state, and the
    calls made to listeners so far, oldest first. *)
Record hass : Type := {
  data : entry_state;
  called : list callback
}.

Definition set_filters (f : filters) (st : entry_state) : entry_state :=
  {| st_filters := f;
     device_id := device_id st;
     temp_topic := temp_topic st;
     presence_topic := presence_topic st;
     last_temp_avg := last_temp_avg st;
     listeners := listeners st |}.

Definition set_last_temp_avg (a : option float) (st : entry_state) : entry_state :=
  {| st_filters := st_filters st;
     device_id := device_id st;
     temp_topic := temp_topic st;
     presence_topic := presence_topic st;
     last_temp_avg := a;
     listeners := listeners st |}.

Definition set_temp_samples (d : deque) (f : filters) : filters :=
  {| temp_window := temp_window f;
     temp_min_delta := temp_min_delta f;
     temp_samples := d;
     last_published_temp := last_published_temp f;
     presence_debounce_ms := presence_debounce_ms f;
     presence_hold_ms := presence_hold_ms f;
     presence_state := presence_state f;
     presence_last_on_ms := presence_last_on_ms f;
     presence_last_change_ms := presence_last_change_ms f |}.

Definition set_presence_state (b : bool) (f : filters) : filters :=
  {| temp_window := temp_window f;
     temp_min_delta := temp_min_delta f;
     temp_samples := temp_samples f;
     last_published_temp := last_published_temp f;
     presence_debounce_ms := presence_debounce_ms f;
     presence_hold_ms := presence_hold_ms f;
     presence_state := b;
     presence_last_on_ms := presence_last_on_ms f;
     presence_last_change_ms := presence_last_change_ms f |}.

Definition set_presence_last_on_ms (t : float) (f : filters) : filters :=
  {| temp_window := temp_window f;
     temp_min_delta := temp_min_delta f;
     temp_samples := temp_samples f;
     last_published_temp := last_published_temp f;
     presence_debounce_ms := presence_debounce_ms f;
     presence_hold_ms := presence_hold_ms f;
     presence_state := presence_state f;
     presence_last_on_ms := t;
     presence_last_change_ms := presence_last_change_ms f |}.

Definition set_presence_last_change_ms (t : float) (f : filters) : filters :=
  {| temp_window := temp_window f;
     temp_min_delta := temp_min_delta f;
     temp_samples := temp_samples f;
     last_published_temp := last_published_temp f;
     presence_debounce_ms := presence_debounce_ms f;
     presence_hold_ms := presence_hold_ms f;
     presence_state := presence_state f;
     presence_last_on_ms := presence_last_on_ms f;
     presence_last_change_ms := t |}.

(** [for cb in st["listeners"]: cb()] *)
Definition notify (h : hass) : hass :=
  {| data := data h;
     called := (called h ++ listeners (data h))%list |}.

(** The state [async_setup_entry] stores for an entry, before any entity has
    registered a listener.  [deque] refuses a negative [maxlen]. *)
Definition async_setup_entry (d : entry_data) : outcome entry_state :=
  let w := get (CONF_TEMP_WINDOW d) DEFAULT_TEMP_WINDOW in
  if w <? 0 then Raised ValueError
  else
    Returned
      {| st_filters :=
           {| temp_window := w;
              temp_min_delta := get (CONF_TEMP_MIN_DELTA d) DEFAULT_TEMP_MIN_DELTA;
              temp_samples := {| maxlen := Z.to_nat w; items := [] |};
              last_published_temp := None;
              presence_debounce_ms := get (CONF_DEBOUNCE_MS d) DEFAULT_DEBOUNCE_MS;
              presence_hold_ms := get (CONF_HOLD_MS d) DEFAULT_HOLD_MS;
              presence_state := false;
              presence_last_on_ms := 0%float;
              presence_last_change_ms := 0%float |};
         device_id := CONF_DEVICE_ID d;
         temp_topic := CONF_TEMP_TOPIC d;
         presence_topic := CONF_PRESENCE_TOPIC d;
         last_temp_avg := None;
         listeners := [] |}.

(** The closure variable [temp_json_path] of the handlers. *)
Definition temp_json_path_of (d : entry_data) : string :=
  PyStr.strip (get (CONF_TEMP_JSON_PATH d) EmptyString).

(** ** The handlers

    The two built-in parsers the temperature handler calls are taken as they
    are: [float_of_str s] is [float(s)] for a [str] ([None] for the
    [ValueError]), [json_loads s] is [json.loads(s)] ([None] for any
    exception it raises).  Everything below holds whatever they answer. *)

Section Handlers.

Variable float_of_str : string -> option float.
Variable json_loads : string -> option json.

(** The closure variable [temp_json_path]. *)
Variable temp_json_path : string.

(** [float(v)] for a decoded JSON value; [None] for the [TypeError],
    [ValueError] or [OverflowError]. *)
Definition float_of_value (v : json) : option float :=
  match v with
  | JFloat x => Some x
  | JInt n => PyNum.float_of_int n
  | JBool b => Some (if b then 1%float else 0%float)
  | JStr s => float_of_str s
  | JNone | JList _ | JDict _ => None
  end.

(** The loop of [_extract_by_path] over the parts of the path. *)
Fixpoint walk (cur : json) (parts : list string) : json :=
  match parts with
  | [] => cur
  | part :: rest =>
      match cur with
      | JDict d =>
          match dict_get d part with
          | Some v => walk v rest
          | None => JNone
          end
      | _ => JNone
      end
  end.

Definition _extract_by_path (obj : json) (path : string) : json :=
  match path with
  | EmptyString => JNone
  | _ => walk obj (PyStr.split "." path)
  end.

Definition is_dict (obj : json) : bool :=
  match obj with JDict _ => true | _ => false end.

(** [isinstance(obj, dict) and "value" in obj] *)
Definition has_value_key (obj : json) : bool :=
  match obj with
  | JDict d => match dict_get d "value" with Some _ => true | None => false end
  | _ => false
  end.

(** [obj["value"]] where [has_value_key obj]. *)
Definition value_of (obj : json) : json :=
  match obj with
  | JDict d => get (dict_get d "value") JNone
  | _ => JNone
  end.

Definition nonempty (s : string) : bool :=
  match s with EmptyString => false | _ => true end.

(** The body of the inner [try] of [_handle_temp], entered with
    [value = None]: [Some value] when it runs to its end, [None] when an
    exception stops it (the handler then passes, [value] still [None]). *)
Definition try_json (s : string) : option (option float) :=
  match json_loads s with
  | None => None
  | Some obj =>
      let value : option float := None in
      match
        (if has_value_key obj
         then option_map Some (float_of_value (value_of obj))
         else Some value)
      with
      | None => None
      | Some value =>
          if match value with None => true | Some _ => false end
             && is_dict obj && nonempty temp_json_path
          then
            let v := _extract_by_path obj temp_json_path in
            if negb (is_none v)
            then option_map Some (float_of_value v)
            else Some value
          else Some value
      end
  end.

(** [value] when [_handle_temp] reaches [if value is None], for the
    stripped payload [s]. *)
Definition decode_value (s : string) : option float :=
  match float_of_str s with
  | Some x => Some x
  | None =>
      match try_json s with
      | Some value => value
      | None => None
      end
  end.

(** [_handle_temp(msg)], on [msg.payload] as text. *)
Definition _handle_temp (payload : string) (h : hass) : outcome hass :=
  let st := data h in
  let f := st_filters st in
  let s := PyStr.strip payload in
  match decode_value s with
  | None => Returned h
  | Some value =>
      let samples := append (temp_samples f) value in
      let st1 := set_filters (set_temp_samples samples f) st in
      match truediv_len (PyNum.sum (items samples)) (List.length (items samples)) with
      | Raised e =>
          Raised e
      | Returned avg =>
          Returned
            (notify {| data := set_last_temp_avg (Some avg) st1;
                       called := called h |})
      end
  end.

(** The state change of [_handle_presence] for the reading [want_on] at the
    time [now_ms]. *)
Definition presence_update (want_on : bool) (now_ms : float) (f : filters)
  : filters :=
  if negb (Bool.eqb want_on (presence_state f)) then
    if PyNum.float_ge_int
         (PrimFloat.sub now_ms (presence_last_change_ms f))
         (presence_debounce_ms f)
    then
      let f1 := set_presence_last_change_ms now_ms
                  (set_presence_state want_on f) in
      if want_on then set_presence_last_on_ms now_ms f1 else f1
    else f
  else
    if presence_state f
       && PyNum.float_ge_int
            (PrimFloat.sub now_ms (presence_last_on_ms f))
            (presence_hold_ms f)
    then set_presence_last_change_ms now_ms (set_presence_state false f)
    else f.

(** [want_on] of [_handle_presence], from [msg.payload] as text. *)
Definition want_on_of (payload : string) : bool :=
  let s := PyStr.lower (PyStr.strip payload) in
  PyStr.mem s ["1"; "true"; "on"; "yes"]%string.

(** [_handle_presence(msg)] when [hass.loop.time()] answers [loop_time]. *)
Definition _handle_presence (payload : string) (loop_time : float) (h : hass)
  : hass :=
  let st := data h in
  let f := st_filters st in
  let want_on := want_on_of payload in
  let now_ms := PrimFloat.mul loop_time 1000 in
  notify {| data := set_filters (presence_update want_on now_ms f) st;
            called := called h |}.

End Handlers.

(** ** The temperature entity ([sensor.py]) *)

Record DualTempSensor : Type := {
  _last_published : option float
}.

(** [DualTempSensor.native_value]: the value returned, and the entity after
    the read. *)
Definition native_value (d : entry_data) (st : entry_state)
    (self : DualTempSensor) : option float * DualTempSensor :=
  match last_temp_avg st with
  | None => (None, self)
  | Some val =>
      let min_delta := get (CONF_TEMP_MIN_DELTA d) 0.1%float in
      let self' :=
        if match _last_published self with
           | None => true
           | Some p =>
               PyNum.float_ge (PrimFloat.abs (PrimFloat.sub val p)) min_delta
           end
        then {| _last_published := Some val |}
        else self in
      (_last_published self', self')
  end.

(** ** A model of the two built-in parsers

    [float(s)] and [json.loads(s)] on text whose characters are below
    U+0100, used to run the handlers on concrete payloads.  Decimal numbers
    are rounded to the nearest binary64 number, ties to even, as CPython
    does. *)

Module PyModel.

Local Open Scope char_scope.
Local Open Scope Z_scope.

Definition code (c : ascii) : Z := Z.of_N (N_of_ascii c).

Definition is_digit (c : ascii) : bool :=
  (48 <=? code c) && (code c <=? 57).

(** White space of C's [isspace], which [float] strips. *)
Definition is_c_space (c : ascii) : bool :=
  (9 <=? code c) && (code c <=? 13) || (code c =? 32).

Fixpoint lstrip (l : list ascii) : list ascii :=
  match l with
  | c :: r => if is_c_space c then lstrip r else l
  | [] => []
  end.

Definition strip (l : list ascii) : list ascii :=
  rev (lstrip (rev (lstrip l))).

(** The digits at the head of the text, and what follows them. *)
Fixpoint span_digits (l : list ascii) : list ascii * list ascii :=
  match l with
  | c :: r =>
      if is_digit c
      then let (ds, rest) := span_digits r in (c :: ds, rest)
      else ([], l)
  | [] => ([], [])
  end.

Definition Z_of_digits (ds : list ascii) : Z :=
  fold_left (fun a c => 10 * a + (code c - 48)) ds 0.

(** The binary64 number nearest to [(-1)^neg * m * 10 ^ e10], [0 <= m]. *)
Definition decimal_to_float (neg : bool) (m e10 : Z) : float :=
  SF2Prim
    (match m with
     | Z.pos p =>
         if 0 <=? e10
         then binary_normalize prec emax (cond_Zopp neg (m * 10 ^ e10)) 0 false
         else SFdiv prec emax (S754_finite neg p 0)
                (S754_finite false (Z.to_pos (10 ^ (- e10))) 0)
     | _ => S754_zero neg
     end).

Definition to_lower (c : ascii) : ascii :=
  if (65 <=? code c) && (code c <=? 90)
  then ascii_of_N (N_of_ascii c + 32) else c.

Definition eq_chars (a b : list ascii) : bool :=
  String.eqb (string_of_list_ascii a) (string_of_list_ascii b).

(** An optional sign: whether it is a minus, and what follows it. *)
Definition take_sign (l : list ascii) : bool * list ascii :=
  match l with
  | "-" :: r => (true, r)
  | "+" :: r => (false, r)
  | _ => (false, l)
  end.

(** An exponent part [e[sign]digits] at the head of the text: its value and
    what follows; no exponent when no digit follows the [e]. *)
Definition take_exponent (l : list ascii) : Z * list ascii :=
  match l with
  | c :: r =>
      if eq_chars [to_lower c] ["e"]
      then let (neg, r1) := take_sign r in
           match span_digits r1 with
           | ([], _) => (0, l)
           | (ds, rest) => (cond_Zopp neg (Z_of_digits ds), rest)
           end
      else (0, l)
  | [] => (0, l)
  end.

(** A decimal number that fills the whole text. *)
Definition parse_decimal (l : list ascii) : option float :=
  let (neg, l1) := take_sign l in
  let (ip, l2) := span_digits l1 in
  let (fp, l3) :=
    match l2 with
    | "." :: r => span_digits r
    | _ => ([], l2)
    end in
  match (ip ++ fp)%list with
  | [] => None
  | ds =>
      let (e, l4) := take_exponent l3 in
      match l4 with
      | [] => Some (decimal_to_float neg (Z_of_digits ds)
                      (e - Z.of_nat (List.length fp)))
      | _ => None
      end
  end.

(** [inf], [infinity] and [nan], in any case, with an optional sign. *)
Definition parse_inf_or_nan (l : list ascii) : option float :=
  let (neg, l1) := take_sign l in
  let w := map to_lower l1 in
  if eq_chars w (list_ascii_of_string "inf")
     || eq_chars w (list_ascii_of_string "infinity")
  then Some (if neg then neg_infinity else infinity)
  else if eq_chars w (list_ascii_of_string "nan") then Some nan
  else None.

(** Underscores are dropped when they stand between two digits, and refuse
    the text elsewhere. *)
Fixpoint drop_underscores (prev : ascii) (l : list ascii)
  : option (list ascii) :=
  match l with
  | [] => if Ascii.eqb prev "_" then None else Some []
  | c :: r =>
      if Ascii.eqb c "_"
      then if is_digit prev then drop_underscores c r else None
      else if Ascii.eqb prev "_" && negb (is_digit c) then None
           else option_map (cons c) (drop_underscores c r)
  end.

(** The characters U+0085 and U+00A0 are read as spaces; no other
    character from U+007F on is accepted. *)
Definition ascii_text (l : list ascii) : option (list ascii) :=
  if forallb (fun c => code c <? 128) l then Some l
  else if forallb (fun c => (code c <? 127) || (code c =? 133) || (code c =? 160)) l
       then Some (map (fun c => if code c <? 127 then c else " ") l)
       else None.

(** [float(s)] *)
Definition float_of_str (s : string) : option float :=
  match ascii_text (list_ascii_of_string s) with
  | None => None
  | Some l =>
      match drop_underscores Ascii.zero (strip l) with
      | None => None
      | Some t =>
          match parse_decimal t with
          | Some x => Some x
          | None => parse_inf_or_nan t
          end
      end
  end.

(** *** [json.loads] *)

(** White space between the tokens of a JSON text. *)
Definition is_json_space (c : ascii) : bool :=
  (code c =? 32) || (code c =? 9) || (code c =? 10) || (code c =? 13).

Fixpoint skip_ws (l : list ascii) : list ascii :=
  match l with
  | c :: r => if is_json_space c then skip_ws r else l
  | [] => []
  end.

(** [starts p l]: what follows the prefix [p] of [l]. *)
Fixpoint starts (p l : list ascii) : option (list ascii) :=
  match p, l with
  | [], _ => Some l
  | a :: p', b :: l' => if Ascii.eqb a b then starts p' l' else None
  | _ :: _, [] => None
  end.

Definition hex_val (c : ascii) : option Z :=
  let n := code c in
  if (48 <=? n) && (n <=? 57) then Some (n - 48)
  else if (97 <=? n) && (n <=? 102) then Some (n - 87)
  else if (65 <=? n) && (n <=? 70) then Some (n - 55)
  else None.

(** The four hexadecimal digits of a [\u] escape. *)
Definition hex4 (l : list ascii) : option (Z * list ascii) :=
  match l with
  | a :: b :: c :: d :: r =>
      match hex_val a, hex_val b, hex_val c, hex_val d with
      | Some x, Some y, Some z, Some w =>
          Some (((x * 16 + y) * 16 + z) * 16 + w, r)
      | _, _, _, _ => None
      end
  | _ => None
  end.

(** The body of a string, after its opening quote: the characters up to
    the closing quote, escapes decoded.  A control character is refused,
    and so is an escape for a character from U+0100 on, which a [string]
    cannot hold. *)
Fixpoint parse_string (fuel : nat) (l : list ascii)
  : option (list ascii * list ascii) :=
  match fuel with
  | O => None
  | S k =>
      match l with
      | [] => None
      | c :: r =>
          if Ascii.eqb c "034" then Some ([], r)
          else if Ascii.eqb c "\" then
            match r with
            | [] => None
            | e :: r' =>
                let lit (x : ascii) :=
                  option_map (fun p => (x :: fst p, snd p)) (parse_string k r') in
                if Ascii.eqb e "034" then lit e
                else if Ascii.eqb e "\" then lit e
                else if Ascii.eqb e "/" then lit e
                else if Ascii.eqb e "b" then lit (ascii_of_nat 8)
                else if Ascii.eqb e "f" then lit (ascii_of_nat 12)
                else if Ascii.eqb e "n" then lit (ascii_of_nat 10)
                else if Ascii.eqb e "r" then lit (ascii_of_nat 13)
                else if Ascii.eqb e "t" then lit (ascii_of_nat 9)
                else if Ascii.eqb e "u" then
                  match hex4 r' with
                  | Some (n, r'') =>
                      if n <? 256
                      then option_map
                             (fun p => (ascii_of_N (Z.to_N n) :: fst p, snd p))
                             (parse_string k r'')
                      else None
                  | None => None
                  end
                else None
            end
          else if code c <? 32 then None
          else option_map (fun p => (c :: fst p, snd p)) (parse_string k r)
      end
  end.

(** A number at the head of the text: an [int] when it has neither a
    fraction nor an exponent, else a [float]. *)
Definition parse_number (l : list ascii) : option (json * list ascii) :=
  let (neg, l1) :=
    match l with
    | "-" :: r => (true, r)
    | _ => (false, l)
    end in
  match l1 with
  | d :: r1 =>
      if is_digit d then
        let (ip, l2) :=
          if Ascii.eqb d "0" then ([d], r1)
          else let (ds, rest) := span_digits r1 in (d :: ds, rest) in
        let (fp, l3) :=
          match l2 with
          | "." :: r =>
              match span_digits r with
              | ([], _) => ([], l2)
              | (ds, rest) => (ds, rest)
              end
          | _ => ([], l2)
          end in
        let (e, l4) := take_exponent l3 in
        if (List.length l3 =? List.length l4)%nat
           && (List.length fp =? 0)%nat
        then Some (JInt (cond_Zopp neg (Z_of_digits ip)), l4)
        else Some (JFloat (decimal_to_float neg (Z_of_digits (ip ++ fp))
                             (e - Z.of_nat (List.length fp))), l4)
      else None
  | [] => None
  end.

(** [d[k] = v] on the items of a dict. *)
Fixpoint dict_set (d : list (string * json)) (k : string) (v : json)
  : list (string * json) :=
  match d with
  | [] => [(k, v)]
  | (k', v') :: r =>
      if String.eqb k k' then (k', v) :: r else (k', v') :: dict_set r k v
  end.

Definition word (s : string) : list ascii := list_ascii_of_string s.

(** The scanner: [parse_value] reads one value at the head of the text;
    [parse_items] reads the rest of an array after one of its values, and
    [parse_pairs] the rest of an object after one of its pairs. *)
Fixpoint parse_value (fuel : nat) (l : list ascii) {struct fuel}
  : option (json * list ascii) :=
  match fuel with
  | O => None
  | S k =>
      let parse_items :=
        fix parse_items (n : nat) (acc : list json) (l : list ascii)
          {struct n} : option (json * list ascii) :=
          match n with
          | O => None
          | S n' =>
              match skip_ws l with
              | "]" :: r => Some (JList (rev acc), r)
              | "," :: r =>
                  match parse_value k (skip_ws r) with
                  | Some (v, r') => parse_items n' (v :: acc) r'
                  | None => None
                  end
              | _ => None
              end
          end in
      let parse_pair (l : list ascii) : option (string * json * list ascii) :=
        match l with
        | "034" :: r =>
            match parse_string (S (List.length r)) r with
            | Some (key, r1) =>
                match skip_ws r1 with
                | ":" :: r2 =>
                    match parse_value k (skip_ws r2) with
                    | Some (v, r3) => Some (string_of_list_ascii key, v, r3)
                    | None => None
                    end
                | _ => None
                end
            | None => None
            end
        | _ => None
        end in
      let parse_pairs :=
        fix parse_pairs (n : nat) (acc : list (string * json))
          (l : list ascii) {struct n} : option (json * list ascii) :=
          match n with
          | O => None
          | S n' =>
              match skip_ws l with
              | "}" :: r => Some (JDict acc, r)
              | "," :: r =>
                  match parse_pair (skip_ws r) with
                  | Some (key, v, r') => parse_pairs n' (dict_set acc key v) r'
                  | None => None
                  end
              | _ => None
              end
          end in
      match l with
      | "034" :: r =>
          option_map (fun p => (JStr (string_of_list_ascii (fst p)), snd p))
            (parse_string (S (List.length r)) r)
      | "{" :: r =>
          match skip_ws r with
          | "}" :: r' => Some (JDict [], r')
          | r1 =>
              match parse_pair r1 with
              | Some (key, v, r2) =>
                  parse_pairs (S (List.length r2)) [(key, v)] r2
              | None => None
              end
          end
      | "[" :: r =>
          match skip_ws r with
          | "]" :: r' => Some (JList [], r')
          | r1 =>
              match parse_value k r1 with
              | Some (v, r2) => parse_items (S (List.length r2)) [v] r2
              | None => None
              end
          end
      | _ =>
          match starts (word "null") l, starts (word "true") l,
                starts (word "false") l with
          | Some r, _, _ => Some (JNone, r)
          | _, Some r, _ => Some (JBool true, r)
          | _, _, Some r => Some (JBool false, r)
          | _, _, _ =>
              match starts (word "NaN") l, starts (word "Infinity") l,
                    starts (word "-Infinity") l with
              | Some r, _, _ => Some (JFloat nan, r)
              | _, Some r, _ => Some (JFloat infinity, r)
              | _, _, Some r => Some (JFloat neg_infinity, r)
              | _, _, _ => parse_number l
              end
          end
      end
  end.

(** [json.loads(s)]: one value, with white space around it and nothing
    else. *)
Definition json_loads (s : string) : option json :=
  let l := list_ascii_of_string s in
  match parse_value (S (List.length l)) (skip_ws l) with
  | Some (v, r) =>
      match skip_ws r with
      | [] => Some v
      | _ => None
      end
  | None => None
  end.

End PyModel.

(** ** Runs and observations *)

(** How many times the listener [cb] was called between [h] and [h']. *)
Definition invocations (h h' : hass) (cb : callback) : nat :=
  (count_occ Nat.eq_dec (called h') cb - count_occ Nat.eq_dec (called h) cb)%nat.

(** The entry of the book's example device, every optional key left to its
    default. *)
Definition book_entry : entry_data :=
  {| CONF_DEVICE_ID := "dev1";
     CONF_TEMP_TOPIC := "home/book2/dev1/temperature";
     CONF_PRESENCE_TOPIC := "home/book2/dev1/presence";
     CONF_TEMP_JSON_PATH := None;
     CONF_TEMP_WINDOW := None;
     CONF_TEMP_MIN_DELTA := None;
     CONF_DEBOUNCE_MS := None;
     CONF_HOLD_MS := None |}.

(** The host once [async_setup_entry] has stored the entry's state and the
    entities [ls] have registered their listeners; nothing called yet. *)
Definition started (d : entry_data) (ls : list callback) : outcome hass :=
  match async_setup_entry d with
  | Raised e => Raised e
  | Returned st =>
      Returned
        {| data :=
             {| st_filters := st_filters st;
                device_id := device_id st;
                temp_topic := temp_topic st;
                presence_topic := presence_topic st;
                last_temp_avg := last_temp_avg st;
                listeners := ls |};
           called := [] |}
  end.

(** The dictionary [filt] that [async_setup_entry] builds for
    [book_entry]. *)
Definition book_filters : filters :=
  {| temp_window := 5;
     temp_min_delta := 0.1%float;
     temp_samples := {| maxlen := 5; items := [] |};
     last_published_temp := None;
     presence_debounce_ms := 300;
     presence_hold_ms := 5000;
     presence_state := false;
     presence_last_on_ms := 0%float;
     presence_last_change_ms := 0%float |}.

(** The host for [book_entry] with the listeners [ls] registered. *)
Definition book_host (ls : list callback) : hass :=
  {| data :=
       {| st_filters := book_filters;
          device_id := "dev1";
          temp_topic := "home/book2/dev1/temperature";
          presence_topic := "home/book2/dev1/presence";
          last_temp_avg := None;
          listeners := ls |};
     called := [] |}.

(** The arithmetic mean as [_handle_temp] computes it: [sum(l) / len(l)]. *)
Definition mean (l : list float) : float :=
  PrimFloat.div (PyNum.sum l) (float_of_len (List.length l)).

(** The [w] most recent items of [l], all of [l] when it has fewer. *)
Definition recent {A : Type} (w : nat) (l : list A) : list A :=
  skipn (List.length l - w) l.

(** A message of one of the two subscriptions, the presence one with the
    reading of the loop's clock at its delivery. *)
Inductive message : Type :=
| Temperature (payload : string)
| Presence (payload : string) (loop_time : float).

Section Runs.

Variable float_of_str : string -> option float.
Variable json_loads : string -> option json.
Variable temp_json_path : string.

Definition deliver (m : message) (h : hass) : outcome hass :=
  match m with
  | Temperature payload =>
      _handle_temp float_of_str json_loads temp_json_path payload h
  | Presence payload loop_time =>
      Returned (_handle_presence payload loop_time h)
  end.

(** The messages are delivered one at a time, oldest first. *)
Fixpoint deliver_all (ms : list message) (h : hass) : outcome hass :=
  match ms with
  | [] => Returned h
  | m :: r =>
      match deliver m h with
      | Returned h' => deliver_all r h'
      | Raised e => Raised e
      end
  end.

(** The temperatures decoded from the messages, oldest first. *)
Fixpoint readings (ms : list message) : list float :=
  match ms with
  | [] => []
  | Temperature payload :: r =>
      match decode_value float_of_str json_loads temp_json_path
              (PyStr.strip payload) with
      | Some v => v :: readings r
      | None => readings r
      end
  | Presence _ _ :: r => readings r
  end.

End Runs.

(** [book_entry] with the publish threshold set to zero. *)
Definition zero_delta_entry : entry_data :=
  {| CONF_DEVICE_ID := "dev1";
     CONF_TEMP_TOPIC := "home/book2/dev1/temperature";
     CONF_PRESENCE_TOPIC := "home/book2/dev1/presence";
     CONF_TEMP_JSON_PATH := None;
     CONF_TEMP_WINDOW := None;
     CONF_TEMP_MIN_DELTA := Some 0%float;
     CONF_DEBOUNCE_MS := None;
     CONF_HOLD_MS := None |}.

(** The samples of the host's deque. *)
Definition samples_of (h : hass) : list float :=
  items (temp_samples (st_filters (data h))).

(** The capacity of the host's deque. *)
Definition capacity_of (h : hass) : nat :=
  maxlen (temp_samples (st_filters (data h))).

(** ** The decoder in the specification's words

    [decodeNumeric(payload, jsonPath)] as the specification lists its
    steps, to be compared with [decode_value]: each of the three attempts on
    its own, the chain in which the first success wins, and the variant in
    which the path is walked only for an object without the key [value]. *)

Section SpecDecoder.

Variable float_of_str : string -> option float.
Variable json_loads : string -> option json.

(** Step 3's walk: each segment must be a present key of a JSON object. *)
Fixpoint walk_path (cur : json) (segments : list string) : option json :=
  match segments with
  | [] => Some cur
  | seg :: rest =>
      match cur with
      | JDict d =>
          match dict_get d seg with
          | Some v => walk_path v rest
          | None => None
          end
      | _ => None
      end
  end.

(** 1. Direct float parse of the trimmed string. *)
Definition attempt_scalar (s : string) : option float :=
  float_of_str s.

(** 2. JSON parse and, for an object containing the key [value], float
    parse of that field. *)
Definition attempt_value_key (s : string) : option float :=
  match json_loads s with
  | Some obj =>
      if has_value_key obj
      then float_of_value float_of_str (value_of obj)
      else None
  | None => None
  end.

(** 3. When the path is non-empty, the walk through the dot-separated path
    and, if the final value exists, its float parse. *)
Definition attempt_path (s jsonPath : string) : option float :=
  if nonempty jsonPath
  then match json_loads s with
       | Some obj =>
           match walk_path obj (PyStr.split "." jsonPath) with
           | Some JNone | None => None
           | Some v => float_of_value float_of_str v
           end
       | None => None
       end
  else None.

(** The three attempts in order, the first success winning; nothing when
    all fail. *)
Definition first_success (payload jsonPath : string) : option float :=
  let s := PyStr.strip payload in
  match attempt_scalar s with
  | Some x => Some x
  | None =>
      match attempt_value_key s with
      | Some x => Some x
      | None => attempt_path s jsonPath
      end
  end.

(** The three attempts in order, the path being walked only when the JSON
    text is not an object with the key [value]. *)
Definition decodeNumeric (payload jsonPath : string) : option float :=
  let s := PyStr.strip payload in
  match attempt_scalar s with
  | Some x => Some x
  | None =>
      match json_loads s with
      | None => None
      | Some obj =>
          if has_value_key obj
          then attempt_value_key s
          else attempt_path s jsonPath
      end
  end.

End SpecDecoder.

(** ** Example payloads *)

(** The double quote. *)
Definition dq : string := String (ascii_of_nat 34) EmptyString.

(** [{"value": 21.7}] *)
Definition payload_value : string :=
  ("{" ++ dq ++ "value" ++ dq ++ ": 21.7}")%string.

(** [{"BMP280":{"Temperature": 19.2}}] *)
Definition payload_bmp280 : string :=
  ("{" ++ dq ++ "BMP280" ++ dq ++ ":{" ++ dq ++ "Temperature" ++ dq
   ++ ": 19.2}}")%string.

(** [{"value": "abc", "t": 21.5}] *)
Definition payload_bad_value : string :=
  ("{" ++ dq ++ "value" ++ dq ++ ": " ++ dq ++ "abc" ++ dq ++ ", "
   ++ dq ++ "t" ++ dq ++ ": 21.5}")%string.

(** ** The other functions of the integration *)

(** [_coerce_bool_string(v)] of [__init__.py]. *)
Definition _coerce_bool_string (v : string) : option bool :=
  let s := PyStr.lower (PyStr.strip v) in
  if PyStr.mem s ["1"; "true"; "on"; "yes"]%string then Some true
  else if PyStr.mem s ["0"; "false"; "off"; "no"]%string then Some false
  else None.

(** [cb in listeners] *)
Definition registered (cb : callback) (ls : list callback) : bool :=
  existsb (Nat.eqb cb) ls.

(** [async_setup_entry] of [sensor.py], for the entity whose
    [async_write_ha_state] is [cb]: the listener is appended. *)
Definition sensor_async_setup_entry (cb : callback) (h : hass) : hass :=
  {| data :=
       {| st_filters := st_filters (data h);
          device_id := device_id (data h);
          temp_topic := temp_topic (data h);
          presence_topic := presence_topic (data h);
          last_temp_avg := last_temp_avg (data h);
          listeners := (listeners (data h) ++ [cb])%list |};
     called := called h |}.

(** [DualPresenceBS.async_added_to_hass] of [binary_sensor.py], for the
    entity whose [async_write_ha_state] is [cb]: the listener is appended
    unless it is registered already, and an initial state is written. *)
Definition async_added_to_hass (cb : callback) (h : hass) : hass :=
  {| data :=
       {| st_filters := st_filters (data h);
          device_id := device_id (data h);
          temp_topic := temp_topic (data h);
          presence_topic := presence_topic (data h);
          last_temp_avg := last_temp_avg (data h);
          listeners :=
            if registered cb (listeners (data h))
            then listeners (data h)
            else (listeners (data h) ++ [cb])%list |};
     called := (called h ++ [cb])%list |}.

(** [DualPresenceBS.is_on] *)
Definition is_on (h : hass) : bool :=
  presence_state (st_filters (data h)).

(** What happens to an entry in time: a message is delivered, or the
    temperature entity's [native_value] is read. *)
Inductive event : Type :=
| Deliver (m : message)
| Read.

Section Events.

Variable float_of_str : string -> option float.
Variable json_loads : string -> option json.
Variable temp_json_path : string.
Variable d : entry_data.

(** The host and the temperature entity after the events, oldest first. *)
Fixpoint run_events (es : list event) (h : hass) (self : DualTempSensor)
  : outcome (hass * DualTempSensor) :=
  match es with
  | [] => Returned (h, self)
  | Deliver m :: r =>
      match deliver float_of_str json_loads temp_json_path m h with
      | Returned h' => run_events r h' self
      | Raised e => Raised e
      end
  | Read :: r => run_events r h (snd (native_value d (data h) self))
  end.

(** The values [last_temp_avg] takes along the events, the first one
    included. *)
Fixpoint averages (es : list event) (h : hass) : list (option float) :=
  last_temp_avg (data h)
  :: match es with
     | [] => []
     | Deliver m :: r =>
         match deliver float_of_str json_loads temp_json_path m h with
         | Returned h' => averages r h'
         | Raised _ => []
         end
     | Read :: r => averages r h
     end.

End Events.

(** Text made of white space only. *)
Definition blank (s : string) : Prop :=
  PyStr.lstrip s = EmptyString.

(** What no message may change: the configured windows and threshold, the
    capacity of the deque, the key [last_published_temp], the identity of
    the device and the registered listeners. *)
Definition same_settings (h h' : hass) : Prop :=
  temp_window (st_filters (data h')) = temp_window (st_filters (data h))
  /\ temp_min_delta (st_filters (data h')) = temp_min_delta (st_filters (data h))
  /\ capacity_of h' = capacity_of h
  /\ last_published_temp (st_filters (data h'))
     = last_published_temp (st_filters (data h))
  /\ presence_debounce_ms (st_filters (data h'))
     = presence_debounce_ms (st_filters (data h))
  /\ presence_hold_ms (st_filters (data h'))
     = presence_hold_ms (st_filters (data h))
  /\ device_id (data h') = device_id (data h)
  /\ temp_topic (data h') = temp_topic (data h)
  /\ presence_topic (data h') = presence_topic (data h)
  /\ listeners (data h') = listeners (data h).

(** The presence part of the state. *)
Definition presence_of (h : hass) : bool * float * float :=
  (presence_state (st_filters (data h)),
   presence_last_on_ms (st_filters (data h)),
   presence_last_change_ms (st_filters (data h))).

(** The temperature part of the state. *)
Definition temperature_of (h : hass) : deque * option float :=
  (temp_samples (st_filters (data h)), last_temp_avg (data h)).

(** The number of presence messages among [ms]. *)
Fixpoint presence_count (ms : list message) : nat :=
  match ms with
  | [] => O
  | Presence _ _ :: r => S (presence_count r)
  | Temperature _ :: r => presence_count r
  end.

(** ** Several entries

    [hass.data[DOMAIN]] maps the id of each loaded entry to its state; the
    handlers of an entry look their state up by that id at every message. *)

Definition domain : Type := list (string * entry_state).

(** [hass.data[DOMAIN].get(entry_id)] *)
Fixpoint domain_get (dom : domain) (entry_id : string) : option entry_state :=
  match dom with
  | [] => None
  | (k, st) :: r =>
      if String.eqb entry_id k then Some st else domain_get r entry_id
  end.

(** [hass.data[DOMAIN][entry_id] = st] *)
Fixpoint domain_set (dom : domain) (entry_id : string) (st : entry_state)
  : domain :=
  match dom with
  | [] => [(entry_id, st)]
  | (k, st') :: r =>
      if String.eqb entry_id k then (k, st) :: r
      else (k, st') :: domain_set r entry_id st
  end.

(** [hass.data[DOMAIN].pop(entry_id, None)] *)
Fixpoint domain_pop (dom : domain) (entry_id : string) : domain :=
  match dom with
  | [] => []
  | (k, st) :: r =>
      if String.eqb entry_id k then domain_pop r entry_id
      else (k, st) :: domain_pop r entry_id
  end.

(** The host with all its entries. *)
Record core : Type := {
  entries : domain;
  calls : list callback
}.

(** What a handler may raise once entries come and go. *)
Inductive failure : Type :=
| KeyError
| Inside (e : exn).

Inductive result (A : Type) : Type :=
| Done (a : A)
| Failed (f : failure).

Arguments Done {A} a.
Arguments Failed {A} f.

(** [async_setup_entry] of [__init__.py] for the entry [entry_id]: its
    state is stored, over any state stored under the same id. *)
Definition setup_entry (entry_id : string) (d : entry_data) (c : core)
  : result core :=
  match async_setup_entry d with
  | Raised e => Failed (Inside e)
  | Returned st =>
      Done {| entries := domain_set (entries c) entry_id st;
              calls := calls c |}
  end.

(** [async_unload_entry] when the platforms answer [unload_ok]: the new
    host and the value returned. *)
Definition async_unload_entry (unload_ok : bool) (entry_id : string)
    (c : core) : core * bool :=
  (if unload_ok
   then {| entries := domain_pop (entries c) entry_id; calls := calls c |}
   else c,
   unload_ok).

Section Subscriptions.

Variable float_of_str : string -> option float.
Variable json_loads : string -> option json.
Variable temp_json_path : string.

(** A message for the entry [entry_id]: its handler looks the state up,
    [st = hass.data[DOMAIN][entry.entry_id]], and works on it. *)
Definition deliver_to (entry_id : string) (m : message) (c : core)
  : result core :=
  match domain_get (entries c) entry_id with
  | None => Failed KeyError
  | Some st =>
      match deliver float_of_str json_loads temp_json_path m
              {| data := st; called := calls c |} with
      | Raised e => Failed (Inside e)
      | Returned h =>
          Done {| entries := domain_set (entries c) entry_id (data h);
                  calls := called h |}
      end
  end.

End Subscriptions.

(** * Properties *)

(** ** The example entry *)

Lemma started_book (ls : list callback) :
  started book_entry ls = Returned (book_host ls).
Proof. reflexivity. Qed.

(** ** Numbers *)

Lemma float_lt_int_not_ge (x : float) (n : Z) :
  PyNum.float_lt_int x n = true -> PyNum.float_ge_int x n = false.
Proof.
  unfold PyNum.float_lt_int, PyNum.float_ge_int.
  destruct (Prim2SF x) as [sz | si | | s m e].
  - intros H. apply Z.ltb_lt in H. apply Z.leb_gt. exact H.
  - intros H. rewrite H. reflexivity.
  - discriminate.
  - cbv zeta. destruct (0 <=? e); intros H; apply Z.ltb_lt in H;
      apply Z.leb_gt; exact H.
Qed.

(** ** The presence state machine *)

Section Presence.

Implicit Types (f : filters) (want_on : bool) (now_ms : float).

(** The fields a presence reading never writes. *)
Lemma presence_update_config f want_on now_ms :
  let f' := presence_update want_on now_ms f in
  presence_debounce_ms f' = presence_debounce_ms f
  /\ presence_hold_ms f' = presence_hold_ms f
  /\ temp_samples f' = temp_samples f
  /\ temp_window f' = temp_window f
  /\ temp_min_delta f' = temp_min_delta f
  /\ last_published_temp f' = last_published_temp f.
Proof.
  unfold presence_update.
  destruct (negb (Bool.eqb want_on (presence_state f)));
    [ destruct (PyNum.float_ge_int _ (presence_debounce_ms f)); [destruct want_on|]
    | destruct (presence_state f && _) ];
    cbn; repeat split; reflexivity.
Qed.

(** A reading that differs from the state, once the debounce window has
    elapsed. *)
Lemma presence_update_accept f want_on now_ms :
  want_on <> presence_state f ->
  PyNum.float_ge_int (PrimFloat.sub now_ms (presence_last_change_ms f))
    (presence_debounce_ms f) = true ->
  let f' := presence_update want_on now_ms f in
  presence_state f' = want_on
  /\ presence_last_change_ms f' = now_ms
  /\ presence_last_on_ms f'
     = (if want_on then now_ms else presence_last_on_ms f).
Proof.
  intros Hne Hge. unfold presence_update.
  destruct (Bool.eqb want_on (presence_state f)) eqn:E.
  - apply Bool.eqb_prop in E. contradiction.
  - cbn [negb]. rewrite Hge. destruct want_on; cbn; auto.
Qed.

(** A reading that differs from the state, inside the debounce window. *)
Lemma presence_update_drop f want_on now_ms :
  want_on <> presence_state f ->
  PyNum.float_ge_int (PrimFloat.sub now_ms (presence_last_change_ms f))
    (presence_debounce_ms f) = false ->
  presence_update want_on now_ms f = f.
Proof.
  intros Hne Hge. unfold presence_update.
  destruct (Bool.eqb want_on (presence_state f)) eqn:E.
  - apply Bool.eqb_prop in E. contradiction.
  - cbn [negb]. rewrite Hge. reflexivity.
Qed.

(** A reading equal to the state: only the hold test is left. *)
Lemma presence_update_same f now_ms :
  presence_update (presence_state f) now_ms f
  = if presence_state f
       && PyNum.float_ge_int
            (PrimFloat.sub now_ms (presence_last_on_ms f))
            (presence_hold_ms f)
    then set_presence_last_change_ms now_ms (set_presence_state false f)
    else f.
Proof.
  unfold presence_update. rewrite Bool.eqb_reflx. reflexivity.
Qed.

(** Whenever a reading changes the state, it stamps the change with its
    own time. *)
Lemma presence_update_changed f want_on now_ms :
  presence_state (presence_update want_on now_ms f) <> presence_state f ->
  presence_last_change_ms (presence_update want_on now_ms f) = now_ms.
Proof.
  unfold presence_update.
  destruct (negb (Bool.eqb want_on (presence_state f)));
    [ destruct (PyNum.float_ge_int _ (presence_debounce_ms f)); [destruct want_on|]
    | destruct (presence_state f && _) ];
    cbn; intros H; try reflexivity; contradiction H; reflexivity.
Qed.

End Presence.

(** ** Claims on the presence state machine *)

(** C5: a reading equal to the current state.  When the state is ON, the
    reading forces it OFF and stamps the change as soon as
    [now_ms - presence_last_on_ms >= presence_hold_ms], and leaves the state
    ON (nothing is written) while [now_ms - presence_last_on_ms <
    presence_hold_ms]; when the state is OFF, nothing is written. *)
Theorem hold_expiry_on_matching_reading :
  forall (f : filters) (want_on : bool) (now_ms : float),
    want_on = presence_state f ->
    let f' := presence_update want_on now_ms f in
    let elapsed := PrimFloat.sub now_ms (presence_last_on_ms f) in
    (presence_state f = true ->
       (PyNum.float_ge_int elapsed (presence_hold_ms f) = true ->
          presence_state f' = false
          /\ presence_last_change_ms f' = now_ms
          /\ presence_last_on_ms f' = presence_last_on_ms f)
       /\ (PyNum.float_lt_int elapsed (presence_hold_ms f) = true ->
             presence_state f' = true /\ f' = f))
    /\ (presence_state f = false -> f' = f).
Proof.
  intros f want_on now_ms -> f' elapsed. subst f' elapsed.
  rewrite presence_update_same. split.
  - intros Hon. rewrite Hon. cbn [andb]. split.
    + intros Hge. rewrite Hge. cbn. auto.
    + intros Hlt. rewrite (float_lt_int_not_ge _ _ Hlt). auto.
  - intros Hoff. rewrite Hoff. reflexivity.
Qed.

Lemma hold_expiry_on_matching_reading_witness :
  let f := presence_update true 1000%float book_filters in
  presence_state f = true
  /\ presence_state (presence_update true 4000%float f) = true
  /\ presence_state (presence_update true 6000%float f) = false.
Proof.
  intros f.
  assert (Hon : presence_state f = true) by (vm_compute; reflexivity).
  split; [exact Hon|].
  pose proof (hold_expiry_on_matching_reading f true 4000%float
                (eq_sym Hon)) as H4.
  pose proof (hold_expiry_on_matching_reading f true 6000%float
                (eq_sym Hon)) as H6.
  cbv zeta in H4, H6.
  destruct H4 as [H4 _]. destruct (H4 Hon) as [_ Hstay].
  destruct H6 as [H6 _]. destruct (H6 Hon) as [Hoff _].
  split.
  - apply Hstay. vm_compute. reflexivity.
  - apply Hoff. vm_compute. reflexivity.
Defined.

(** C6: a reading that differs from the current state is accepted only when
    [now_ms - presence_last_change_ms >= presence_debounce_ms]: then the
    state becomes the reading, the change is stamped, and an ON reading also
    stamps [presence_last_on_ms]; otherwise nothing at all is written.
    Hence of two conflicting readings less than [presence_debounce_ms]
    apart, at most one changes the state. *)
Theorem debounce_on_conflicting_reading :
  forall (f : filters) (want_on : bool) (now_ms : float),
    want_on <> presence_state f ->
    let f' := presence_update want_on now_ms f in
    let since := PrimFloat.sub now_ms (presence_last_change_ms f) in
    (PyNum.float_ge_int since (presence_debounce_ms f) = true ->
       presence_state f' = want_on
       /\ presence_last_change_ms f' = now_ms
       /\ presence_last_on_ms f'
          = (if want_on then now_ms else presence_last_on_ms f))
    /\ (PyNum.float_ge_int since (presence_debounce_ms f) = false -> f' = f)
    /\ (presence_state f' <> presence_state f ->
          PyNum.float_ge_int since (presence_debounce_ms f) = true)
    /\ (forall (g : filters) (w : bool) (t1 t2 : float),
          PyNum.float_ge_int (PrimFloat.sub t2 t1) (presence_debounce_ms g)
          = false ->
          let g1 := presence_update w t1 g in
          let g2 := presence_update (negb w) t2 g1 in
          presence_state g1 <> presence_state g -> g2 = g1).
Proof.
  intros f want_on now_ms Hne f' since. subst f' since.
  split; [| split; [| split]].
  - intros Hge. apply presence_update_accept; assumption.
  - intros Hlt. apply presence_update_drop; assumption.
  - intros Hch.
    destruct (PyNum.float_ge_int _ (presence_debounce_ms f)) eqn:E;
      [reflexivity|].
    rewrite (presence_update_drop _ _ _ Hne E) in Hch.
    contradiction Hch. reflexivity.
  - intros g w t1 t2 Hclose g1 g2 Hch. subst g1 g2.
    set (g1 := presence_update w t1 g) in *.
    assert (Hstamp : presence_last_change_ms g1 = t1)
      by (apply presence_update_changed; exact Hch).
    assert (Hdeb : presence_debounce_ms g1 = presence_debounce_ms g)
      by (apply (presence_update_config g w t1)).
    destruct (Bool.bool_dec (negb w) (presence_state g1)) as [Hsame | Hdiff].
    + (* the first reading was a stale ON that forced the state OFF *)
      assert (Hw : presence_state g1 = false).
      { revert Hch Hsame. unfold g1, presence_update.
        destruct w, (presence_state g) eqn:Hg; cbn;
          repeat match goal with
                 | |- context [PyNum.float_ge_int ?a ?b] =>
                     destruct (PyNum.float_ge_int a b)
                 end;
          cbn; rewrite ?Hg; intros; congruence. }
      rewrite Hsame, presence_update_same, Hw. reflexivity.
    + apply presence_update_drop; [exact Hdiff|].
      rewrite Hstamp, Hdeb. exact Hclose.
Qed.

Lemma debounce_on_conflicting_reading_witness :
  let f := book_filters in
  let f1 := presence_update true 1000%float f in
  presence_state f1 = true
  /\ presence_last_change_ms f1 = 1000%float
  /\ presence_last_on_ms f1 = 1000%float
  /\ presence_update true 100%float f = f
  /\ presence_update false 1100%float f1 = f1.
Proof.
  intros f f1.
  assert (Hne : true <> presence_state f) by (vm_compute; discriminate).
  pose proof (debounce_on_conflicting_reading f true 1000%float Hne) as H.
  cbv zeta in H. destruct H as (Hacc & _ & _ & Htwo).
  pose proof (debounce_on_conflicting_reading f true 100%float Hne) as H'.
  cbv zeta in H'. destruct H' as (_ & Hdrop & _ & _).
  assert (Hon : presence_state f1 = true /\ presence_last_change_ms f1 = 1000%float
                /\ presence_last_on_ms f1 = 1000%float)
    by (apply Hacc; vm_compute; reflexivity).
  destruct Hon as (Hs & Hc & Ho).
  split; [exact Hs | split; [exact Hc | split; [exact Ho | split]]].
  - apply Hdrop. vm_compute. reflexivity.
  - apply (Htwo f true 1000%float 1100%float).
    + vm_compute. reflexivity.
    + fold f1. rewrite Hs. vm_compute. discriminate.
Defined.

(** C9: every presence message calls the listeners, whatever the payload,
    the clock and the state: the calls made are the registered listeners, in
    registration order, each as many times as it is registered, so exactly
    once for listeners registered once; the registrations are untouched. *)
Theorem presence_notifies_every_listener :
  forall (payload : string) (loop_time : float) (h : hass),
    let h' := _handle_presence payload loop_time h in
    called h' = (called h ++ listeners (data h))%list
    /\ listeners (data h') = listeners (data h)
    /\ (forall cb : callback,
          invocations h h' cb
          = count_occ Nat.eq_dec (listeners (data h)) cb)
    /\ (NoDup (listeners (data h)) ->
        forall cb : callback,
          In cb (listeners (data h)) -> invocations h h' cb = 1%nat).
Proof.
  intros payload loop_time h h'.
  assert (Hcalled : called h' = (called h ++ listeners (data h))%list)
    by reflexivity.
  assert (Hinv : forall cb, invocations h h' cb
                            = count_occ Nat.eq_dec (listeners (data h)) cb).
  { intros cb. unfold invocations. rewrite Hcalled, count_occ_app.
    rewrite Nat.add_comm. apply Nat.add_sub. }
  repeat split; try assumption; try reflexivity.
  intros Hnd cb Hin. rewrite Hinv.
  apply NoDup_count_occ'; assumption.
Qed.

(** C2 (the code departs from it): with the default windows (debounce
    300 ms, hold 5000 ms) presence turns ON at 1000 ms, and an OFF reading at
    1500 ms turns it OFF, 500 ms after it came on: the branch for a reading
    that differs from the state tests the debounce window only. *)
Theorem explicit_off_ends_hold_early :
  let h1 := _handle_presence "on" 1%float (book_host []) in
  let h2 := _handle_presence "off" 1.5%float h1 in
  let f1 := st_filters (data h1) in
  let f2 := st_filters (data h2) in
  presence_state f1 = true
  /\ presence_last_on_ms f1 = 1000%float
  /\ presence_state f2 = false
  /\ presence_last_change_ms f2 = 1500%float
  /\ PyNum.float_lt_int
       (PrimFloat.sub 1500 (presence_last_on_ms f2)) (presence_hold_ms f2)
     = true.
Proof. vm_compute. repeat split. Qed.

(** ** The moving average *)

Section Window.

Context {A : Type}.

Lemma recent_length (w : nat) (l : list A) :
  List.length (recent w l) = Nat.min (List.length l) w.
Proof. unfold recent. rewrite length_skipn. lia. Qed.

(** Pushing [x] at the right of the [w] most recent items of [l] and
    dropping the leftmost item of a result longer than [w] leaves the [w]
    most recent items of [l ++ [x]]. *)
Lemma recent_push (w : nat) (l : list A) (x : A) :
  (let r := (recent w l ++ [x])%list in
   if (w <? List.length r)%nat then tl r else r)
  = recent w (l ++ [x]).
Proof.
  cbv zeta. unfold recent.
  rewrite length_app, length_app, length_skipn. cbn [List.length].
  destruct (Nat.ltb_spec w (List.length l - (List.length l - w) + 1)) as [H | H].
  - replace (List.length l + 1 - w)%nat with (1 + (List.length l - w))%nat by lia.
    rewrite <- skipn_skipn, skipn_app.
    replace (List.length l - w - List.length l)%nat with O by lia.
    cbn [skipn].
    destruct (skipn (List.length l - w) l ++ [x])%list; reflexivity.
  - replace (List.length l + 1 - w)%nat with O by lia.
    replace (List.length l - w)%nat with O by lia.
    reflexivity.
Qed.

End Window.

Section Temperature.

Variable float_of_str : string -> option float.
Variable json_loads : string -> option json.
Variable temp_json_path : string.

Local Abbreviation decode := (decode_value float_of_str json_loads temp_json_path).
Local Abbreviation handle := (_handle_temp float_of_str json_loads temp_json_path).
Local Abbreviation run := (deliver_all float_of_str json_loads temp_json_path).
Local Abbreviation decoded := (readings float_of_str json_loads temp_json_path).

(** A payload that decodes to nothing leaves the host as it is. *)
Lemma handle_temp_absent (payload : string) (h : hass) :
  decode (PyStr.strip payload) = None -> handle payload h = Returned h.
Proof. intros H. unfold _handle_temp. rewrite H. reflexivity. Qed.

(** A deque of capacity at least one is not empty after an append. *)
Lemma append_nonempty (d : deque) (x : float) :
  (1 <= maxlen d)%nat -> items (append d x) <> [].
Proof.
  intros Hcap. unfold append. cbn [items].
  destruct (Nat.ltb_spec (maxlen d) (List.length (items d ++ [x]))) as [H | H].
  - rewrite length_app in H. cbn in H.
    destruct (items d) as [| a [| b l]]; cbn in *; [lia | | ]; discriminate.
  - destruct (items d); discriminate.
Qed.

(** A payload that decodes to [v]: the sample is appended, the mean of the
    deque stored, and the listeners called. *)
Lemma handle_temp_value (payload : string) (h : hass) (v : float) :
  decode (PyStr.strip payload) = Some v ->
  (1 <= capacity_of h)%nat ->
  let samples := append (temp_samples (st_filters (data h))) v in
  handle payload h
  = Returned
      (notify
         {| data :=
              set_last_temp_avg (Some (mean (items samples)))
                (set_filters
                   (set_temp_samples samples (st_filters (data h)))
                   (data h));
            called := called h |}).
Proof.
  intros Hv Hcap samples. unfold _handle_temp. rewrite Hv. fold samples.
  pose proof (append_nonempty (temp_samples (st_filters (data h))) v Hcap)
    as Hne.
  fold samples in Hne. unfold truediv_len, mean.
  destruct (items samples) as [| a l]; [contradiction Hne; reflexivity|].
  reflexivity.
Qed.

(** The window after any run of messages, from a host whose deque holds
    the [w] most recent of the readings [hist] made so far. *)
Lemma run_window (w : nat) (ms : list message) :
  (1 <= w)%nat ->
  forall (hist : list float) (h : hass),
    capacity_of h = w ->
    samples_of h = recent w hist ->
    exists h',
      run ms h = Returned h'
      /\ capacity_of h' = w
      /\ samples_of h' = recent w (hist ++ decoded ms)
      /\ last_temp_avg (data h')
         = match decoded ms with
           | [] => last_temp_avg (data h)
           | _ => Some (mean (recent w (hist ++ decoded ms)))
           end.
Proof.
  intros Hw. induction ms as [| m ms IH]; intros hist h Hcap Hitems.
  - exists h. cbn. rewrite app_nil_r. auto.
  - destruct m as [payload | payload loop_time]; cbn [deliver_all deliver readings].
    + destruct (decode (PyStr.strip payload)) as [v |] eqn:Hv.
      * rewrite (handle_temp_value payload h v Hv) by (rewrite Hcap; exact Hw).
        cbv zeta.
        set (h1 := notify _).
        assert (Hitems1 : samples_of h1 = recent w (hist ++ [v])).
        { unfold samples_of, h1. cbn. unfold samples_of in Hitems.
          unfold capacity_of in Hcap. rewrite Hitems, Hcap.
          apply recent_push. }
        assert (Hcap1 : capacity_of h1 = w) by exact Hcap.
        destruct (IH (hist ++ [v])%list h1 Hcap1 Hitems1)
          as (h' & Hrun & Hc & Hi & Ha).
        exists h'. rewrite <- app_assoc in Hi, Ha. cbn [app] in Hi, Ha.
        repeat split; try assumption.
        rewrite Ha. destruct (decoded ms) as [| v' vs]; [| reflexivity].
        unfold h1. cbn. unfold samples_of in Hitems1. unfold h1 in Hitems1.
        cbn in Hitems1. rewrite Hitems1. reflexivity.
      * rewrite (handle_temp_absent payload h Hv). apply IH; assumption.
    + set (h1 := _handle_presence payload loop_time h).
      assert (Hsame : temp_samples (st_filters (data h1))
                      = temp_samples (st_filters (data h)))
        by (apply (presence_update_config (st_filters (data h)))).
      apply (IH hist h1).
      * unfold capacity_of. rewrite Hsame. exact Hcap.
      * unfold samples_of. rewrite Hsame. exact Hitems.
Qed.

End Temperature.

(** A host that [async_setup_entry] has just started has an empty deque
    whose capacity is the configured window. *)
Lemma started_window (d : entry_data) (ls : list callback) (h0 : hass) :
  started d ls = Returned h0 ->
  samples_of h0 = []
  /\ capacity_of h0 = Z.to_nat (temp_window (st_filters (data h0)))
  /\ last_temp_avg (data h0) = None
  /\ listeners (data h0) = ls.
Proof.
  unfold started, async_setup_entry.
  destruct (get (CONF_TEMP_WINDOW d) DEFAULT_TEMP_WINDOW <? 0); [discriminate|].
  intros H. injection H as <-. cbn. auto.
Qed.

(** ** Claims on the temperature path *)

(** C4: from a started entry whose window is at least one, after any run of
    messages the deque holds at most [temp_window] samples, namely the
    [min n temp_window] most recent of the [n] temperatures decoded so far,
    in their order of arrival, and [last_temp_avg] is the mean of exactly
    these ([sum / len]); no message raises. *)
Theorem window_holds_most_recent_samples :
  forall (float_of_str : string -> option float)
         (json_loads : string -> option json) (temp_json_path : string)
         (d : entry_data) (ls : list callback) (h0 : hass)
         (ms : list message),
    started d ls = Returned h0 ->
    1 <= temp_window (st_filters (data h0)) ->
    let w := Z.to_nat (temp_window (st_filters (data h0))) in
    let vals := readings float_of_str json_loads temp_json_path ms in
    let n := List.length vals in
    exists h' : hass,
      deliver_all float_of_str json_loads temp_json_path ms h0 = Returned h'
      /\ (List.length (samples_of h') <= w)%nat
      /\ List.length (samples_of h') = Nat.min n w
      /\ samples_of h' = skipn (n - Nat.min n w) vals
      /\ last_temp_avg (data h')
         = match vals with
           | [] => None
           | _ => Some (mean (skipn (n - Nat.min n w) vals))
           end.
Proof.
  intros float_of_str json_loads temp_json_path d ls h0 ms Hstart Hw w vals n.
  destruct (started_window d ls h0 Hstart) as (Hempty & Hcap & Havg & _).
  assert (Hw1 : (1 <= w)%nat) by (subst w; lia).
  destruct (run_window float_of_str json_loads temp_json_path w ms Hw1 [] h0
              Hcap Hempty) as (h' & Hrun & _ & Hi & Ha).
  cbn [app] in Hi, Ha. fold vals in Hi, Ha.
  assert (Hrec : recent w vals = skipn (n - Nat.min n w) vals).
  { unfold recent. fold n. f_equal. lia. }
  exists h'. rewrite Hi, Ha, Havg, <- Hrec, recent_length. fold n.
  repeat split; try reflexivity; try assumption. lia.
Qed.

Lemma window_holds_most_recent_samples_witness :
  exists h' : hass,
    deliver_all PyModel.float_of_str PyModel.json_loads ""
      [Temperature "1"; Temperature "2"; Presence "on" 1%float;
       Temperature "3"; Temperature "n/a"; Temperature "4";
       Temperature "5"; Temperature "6"; Temperature "8"]
      (book_host [7%nat])
    = Returned h'
    /\ samples_of h' = [3; 4; 5; 6; 8]%float
    /\ last_temp_avg (data h') = Some 5.2%float.
Proof.
  destruct (window_holds_most_recent_samples
              PyModel.float_of_str PyModel.json_loads "" book_entry [7%nat]
              (book_host [7%nat])
              [Temperature "1"; Temperature "2"; Presence "on" 1%float;
               Temperature "3"; Temperature "n/a"; Temperature "4";
               Temperature "5"; Temperature "6"; Temperature "8"]
              (started_book [7%nat]))
    as (h' & Hrun & _ & _ & Hi & Ha).
  - vm_compute. discriminate.
  - exists h'. split; [exact Hrun|]. split.
    + rewrite Hi. vm_compute. reflexivity.
    + rewrite Ha. vm_compute. reflexivity.
Defined.

(** C8: a temperature payload from which no value is decoded raises nothing
    and leaves the host exactly as it was: the samples, [last_temp_avg], the
    published value, and no listener is called. *)
Theorem unparseable_temperature_is_ignored :
  forall (float_of_str : string -> option float)
         (json_loads : string -> option json) (temp_json_path : string)
         (payload : string) (h : hass),
    decode_value float_of_str json_loads temp_json_path (PyStr.strip payload)
    = None ->
    _handle_temp float_of_str json_loads temp_json_path payload h = Returned h.
Proof.
  intros float_of_str json_loads temp_json_path payload h.
  apply handle_temp_absent.
Qed.

Lemma unparseable_temperature_is_ignored_witness :
  decode_value PyModel.float_of_str PyModel.json_loads "BMP280.Temperature"
    (PyStr.strip "not a number") = None
  /\ _handle_temp PyModel.float_of_str PyModel.json_loads "BMP280.Temperature"
       "not a number" (book_host [7%nat])
     = Returned (book_host [7%nat]).
Proof.
  assert (H : decode_value PyModel.float_of_str PyModel.json_loads
                "BMP280.Temperature" (PyStr.strip "not a number") = None)
    by (vm_compute; reflexivity).
  split; [exact H|].
  exact (unparseable_temperature_is_ignored _ _ _ _ (book_host [7%nat]) H).
Defined.

(** C1, as the code has it: a temperature message from which a value is
    decoded calls every registered listener, in registration order, each as
    many times as it is registered (once for a listener registered once),
    whatever the distance between the new average and the value last
    published; the handler never consults the threshold. *)
Theorem temperature_notifies_on_every_decoded_value :
  forall (float_of_str : string -> option float)
         (json_loads : string -> option json) (temp_json_path : string)
         (payload : string) (h : hass) (v : float),
    decode_value float_of_str json_loads temp_json_path (PyStr.strip payload)
    = Some v ->
    (1 <= capacity_of h)%nat ->
    exists h' : hass,
      _handle_temp float_of_str json_loads temp_json_path payload h
      = Returned h'
      /\ called h' = (called h ++ listeners (data h))%list
      /\ listeners (data h') = listeners (data h)
      /\ (forall cb : callback,
            invocations h h' cb
            = count_occ Nat.eq_dec (listeners (data h)) cb)
      /\ (NoDup (listeners (data h)) ->
          forall cb : callback,
            In cb (listeners (data h)) -> invocations h h' cb = 1%nat).
Proof.
  intros float_of_str json_loads temp_json_path payload h v Hv Hcap.
  rewrite (handle_temp_value _ _ _ payload h v Hv Hcap). cbv zeta.
  set (h' := notify _). exists h'.
  assert (Hcalled : called h' = (called h ++ listeners (data h))%list)
    by reflexivity.
  assert (Hinv : forall cb, invocations h h' cb
                            = count_occ Nat.eq_dec (listeners (data h)) cb).
  { intros cb. unfold invocations. rewrite Hcalled, count_occ_app.
    rewrite Nat.add_comm. apply Nat.add_sub. }
  repeat split; try assumption; try reflexivity.
  intros Hnd cb Hin. rewrite Hinv. apply NoDup_count_occ'; assumption.
Qed.

Lemma temperature_notifies_on_every_decoded_value_witness :
  exists h' : hass,
    _handle_temp PyModel.float_of_str PyModel.json_loads "" "20.05"
      (book_host [7%nat; 9%nat])
    = Returned h'
    /\ called h' = [7%nat; 9%nat]
    /\ invocations (book_host [7%nat; 9%nat]) h' 9%nat = 1%nat.
Proof.
  destruct (temperature_notifies_on_every_decoded_value
              PyModel.float_of_str PyModel.json_loads "" "20.05"
              (book_host [7%nat; 9%nat]) 20.05%float)
    as (h' & Hrun & Hcalled & _ & _ & Hone).
  - vm_compute. reflexivity.
  - vm_compute. lia.
  - exists h'. split; [exact Hrun|]. split; [exact Hcalled|].
    apply Hone.
    + repeat constructor; cbn; intuition discriminate.
    + cbn. auto.
Defined.

(** C1, against the claim as stated: with the default threshold 0.1, after
    20.0 has been taken in and published, the payload 20.05 moves the
    average to 20.025, which is within 0.1 of the published 20.0 (a read of
    the entity publishes nothing new), and the listener is called all the
    same. *)
Lemma temperature_notified_inside_min_delta :
  match _handle_temp PyModel.float_of_str PyModel.json_loads "" "20.0"
          (book_host [7%nat]) with
  | Raised _ => False
  | Returned h1 =>
      let e1 := snd (native_value book_entry (data h1)
                       {| _last_published := None |}) in
      match _handle_temp PyModel.float_of_str PyModel.json_loads "" "20.05" h1
      with
      | Raised _ => False
      | Returned h2 =>
          _last_published e1 = Some 20.0%float
          /\ last_temp_avg (data h2) = Some 20.025%float
          /\ PyNum.float_ge (PrimFloat.abs (PrimFloat.sub 20.025 20.0)) 0.1
             = false
          /\ native_value book_entry (data h2) e1 = (Some 20.0%float, e1)
          /\ invocations h1 h2 7%nat = 1%nat
      end
  end.
Proof. vm_compute. repeat split. Qed.

(** ** The publish threshold *)

Lemma not_nan_Prim2SF (x : float) :
  PrimFloat.is_nan x = false -> Prim2SF x <> S754_nan.
Proof.
  unfold PrimFloat.is_nan. rewrite FloatAxioms.eqb_spec. intros H E.
  rewrite E in H. discriminate.
Qed.

(** A float equal to zero is at most the absolute value of any float that
    is not a NaN. *)
Lemma zero_le_abs (z x : float) :
  PrimFloat.eqb z 0 = true ->
  PrimFloat.is_nan x = false ->
  PyNum.float_ge (PrimFloat.abs x) z = true.
Proof.
  intros Hz Hx. apply not_nan_Prim2SF in Hx.
  unfold PyNum.float_ge. rewrite leb_spec, abs_spec.
  rewrite FloatAxioms.eqb_spec in Hz.
  change (Prim2SF 0) with (S754_zero false) in Hz.
  destruct (Prim2SF z) as [sz | sz | | sz mz ez];
    try discriminate Hz; try (destruct sz; discriminate Hz).
  destruct (Prim2SF x) as [sx | sx | | sx mx ex];
    try reflexivity. contradiction Hx. reflexivity.
Qed.

(** What a read of the entity does to [_last_published]. *)
Lemma native_value_gate (d : entry_data) (st : entry_state)
    (self : DualTempSensor) (val : float) :
  last_temp_avg st = Some val ->
  native_value d st self
  = let self' :=
      if match _last_published self with
         | None => true
         | Some p =>
             PyNum.float_ge (PrimFloat.abs (PrimFloat.sub val p))
               (get (CONF_TEMP_MIN_DELTA d) 0.1%float)
         end
      then {| _last_published := Some val |}
      else self in
    (_last_published self', self').
Proof. intros H. unfold native_value. rewrite H. reflexivity. Qed.

(** C3, as the code has it: on a read of the entity after an ingest with a
    defined average [val], [_last_published] becomes [val] when it was
    [None] or when [abs(val - _last_published) >= min_delta], and is left
    unchanged otherwise.  With [min_delta] equal to zero the value is
    updated whenever [val - _last_published] is not a NaN. *)
Theorem publish_gate_on_read :
  forall (d : entry_data) (st : entry_state) (self : DualTempSensor)
         (val : float),
    last_temp_avg st = Some val ->
    let min_delta := get (CONF_TEMP_MIN_DELTA d) 0.1%float in
    let self' := snd (native_value d st self) in
    fst (native_value d st self) = _last_published self'
    /\ (_last_published self = None -> _last_published self' = Some val)
    /\ (forall p : float,
          _last_published self = Some p ->
          (PyNum.float_ge (PrimFloat.abs (PrimFloat.sub val p)) min_delta
           = true ->
           _last_published self' = Some val)
          /\ (PyNum.float_ge (PrimFloat.abs (PrimFloat.sub val p)) min_delta
              = false ->
              self' = self)
          /\ (PrimFloat.eqb min_delta 0 = true ->
              PrimFloat.is_nan (PrimFloat.sub val p) = false ->
              _last_published self' = Some val)).
Proof.
  intros d st self val Havg min_delta self'. subst self'.
  rewrite (native_value_gate d st self val Havg). cbv zeta. fold min_delta.
  cbn [fst snd]. split; [reflexivity|]. split.
  - intros Hnone. rewrite Hnone. reflexivity.
  - intros p Hp. rewrite Hp.
    assert (Hopen : PyNum.float_ge (PrimFloat.abs (PrimFloat.sub val p))
                      min_delta = true ->
                    _last_published
                      (if PyNum.float_ge (PrimFloat.abs (PrimFloat.sub val p))
                            min_delta
                       then {| _last_published := Some val |} else self)
                    = Some val)
      by (intros ->; reflexivity).
    split; [exact Hopen|]. split.
    + intros ->. reflexivity.
    + intros Hz Hnan. apply Hopen. apply zero_le_abs; assumption.
Qed.

Lemma publish_gate_on_read_witness :
  match started zero_delta_entry [7%nat] with
  | Raised _ => False
  | Returned h0 =>
      let st := set_last_temp_avg (Some 20.5%float) (data h0) in
      snd (native_value zero_delta_entry st
             {| _last_published := Some 20.0%float |})
      = {| _last_published := Some 20.5%float |}
  end.
Proof.
  destruct (started zero_delta_entry [7%nat]) as [h0 | e] eqn:E;
    [| vm_compute in E; discriminate E].
  intros st.
  pose proof (publish_gate_on_read zero_delta_entry st
                {| _last_published := Some 20.0%float |} 20.5%float eq_refl)
    as H.
  cbv zeta in H. destruct H as (_ & _ & H).
  destruct (H 20.0%float eq_refl) as (_ & _ & Hzero).
  destruct (snd (native_value zero_delta_entry st
                   {| _last_published := Some 20.0%float |})) as [lp] eqn:E'.
  cbn in Hzero. f_equal. apply Hzero; vm_compute; reflexivity.
Defined.

(** C3, against the claim as stated: with the threshold at zero, after 20.0
    has been taken in and published, the payload [nan] makes the average a
    NaN, a defined average, and a read of the entity leaves 20.0
    published. *)
Lemma zero_min_delta_keeps_value_on_nan :
  match started zero_delta_entry [7%nat] with
  | Raised _ => False
  | Returned h0 =>
      match _handle_temp PyModel.float_of_str PyModel.json_loads
              (temp_json_path_of zero_delta_entry) "20.0" h0 with
      | Raised _ => False
      | Returned h1 =>
          let e1 := snd (native_value zero_delta_entry (data h1)
                           {| _last_published := None |}) in
          match _handle_temp PyModel.float_of_str PyModel.json_loads
                  (temp_json_path_of zero_delta_entry) "nan" h1 with
          | Raised _ => False
          | Returned h2 =>
              get (CONF_TEMP_MIN_DELTA zero_delta_entry) 0.1%float = 0%float
              /\ _last_published e1 = Some 20.0%float
              /\ last_temp_avg (data h2) = Some nan
              /\ native_value zero_delta_entry (data h2) e1
                 = (Some 20.0%float, e1)
          end
      end
  end.
Proof. vm_compute. repeat split. Qed.

(** ** The decoder *)

Lemma split_nonempty (sep : ascii) (s : string) : PyStr.split sep s <> [].
Proof.
  induction s as [| c r IH]; cbn; [discriminate|].
  destruct (Ascii.eqb c sep); [discriminate|].
  destruct (PyStr.split sep r); [contradiction IH; reflexivity | discriminate].
Qed.

(** The loop of [_extract_by_path] answers [None] exactly where a segment
    is not a present key of an object, or where the value reached is
    [None]. *)
Lemma walk_as_path (cur : json) (parts : list string) :
  walk cur parts
  = match walk_path cur parts with
    | Some v => v
    | None => JNone
    end.
Proof.
  revert cur. induction parts as [| part rest IH]; intros cur; cbn;
    [reflexivity|].
  destruct cur; try reflexivity.
  destruct (dict_get d part); [apply IH | reflexivity].
Qed.

Section Decoder.

Variable float_of_str : string -> option float.
Variable json_loads : string -> option json.
Variable temp_json_path : string.

Local Abbreviation decode := (decode_value float_of_str json_loads temp_json_path).

(** An object with the key [value]: the outcome of [float(obj["value"])]
    is final, an exception included. *)
Lemma decode_value_key (s : string) (d : list (string * json)) (v : json) :
  float_of_str s = None ->
  json_loads s = Some (JDict d) ->
  dict_get d "value" = Some v ->
  decode s = float_of_value float_of_str v.
Proof.
  intros Hf Hj Hv. unfold decode_value, try_json. rewrite Hf, Hj.
  cbn [has_value_key value_of]. rewrite Hv. cbn [get].
  destruct (float_of_value float_of_str v); reflexivity.
Qed.

(** The code decodes what the steps give when the path is kept for
    objects without the key [value]. *)
Lemma decode_refines_spec (payload : string) :
  decode (PyStr.strip payload)
  = decodeNumeric float_of_str json_loads payload temp_json_path.
Proof.
  unfold decode_value, decodeNumeric, try_json, attempt_scalar,
    attempt_value_key, attempt_path.
  destruct (float_of_str (PyStr.strip payload)); [reflexivity|].
  destruct (json_loads (PyStr.strip payload)) as [obj |]; [| reflexivity].
  destruct (has_value_key obj) eqn:Hk.
  - destruct (float_of_value float_of_str (value_of obj)); reflexivity.
  - cbn [andb]. destruct (nonempty temp_json_path) eqn:Hp.
    + destruct obj; cbn [is_dict andb];
        try (destruct (PyStr.split "." temp_json_path) eqn:Hs;
             [ exfalso; exact (split_nonempty _ _ Hs) | reflexivity ]).
      destruct temp_json_path as [| c r]; [discriminate Hp|].
      cbn [_extract_by_path]. rewrite walk_as_path.
      destruct (walk_path (JDict d) (PyStr.split "." (String c r)))
        as [[] |]; cbn [is_none negb];
        try reflexivity;
        match goal with
        | |- context [option_map Some ?o] => destruct o; reflexivity
        end.
    + rewrite Bool.andb_false_r. reflexivity.
Qed.

(** The chain in which the first success wins gives the same value unless
    the object has a [value] field that does not convert. *)
Lemma first_success_agrees (payload : string) :
  (forall obj : json,
      json_loads (PyStr.strip payload) = Some obj ->
      has_value_key obj = true ->
      float_of_value float_of_str (value_of obj) <> None) ->
  decodeNumeric float_of_str json_loads payload temp_json_path
  = first_success float_of_str json_loads payload temp_json_path.
Proof.
  intros Hok. unfold decodeNumeric, first_success, attempt_value_key,
    attempt_path.
  destruct (attempt_scalar float_of_str (PyStr.strip payload));
    [reflexivity|].
  destruct (json_loads (PyStr.strip payload)) as [obj |] eqn:Hj.
  - destruct (has_value_key obj) eqn:Hk; [| reflexivity].
    specialize (Hok obj eq_refl Hk).
    destruct (float_of_value float_of_str (value_of obj));
      [reflexivity | contradiction Hok; reflexivity].
  - destruct (nonempty temp_json_path); reflexivity.
Qed.

End Decoder.

(** ** Claims on the decoder *)

(** C7, as the code has it: the value [_handle_temp] decodes comes from
    three attempts tried in order: the direct float parse of the trimmed
    text; else the JSON parse and, for an object with the key [value], the
    float parse of that field, whose failure ends the decoding with
    nothing; else, for a text that is not an object with the key [value]
    and a non-empty path, the walk through the dot-separated path, each
    segment a present key of an object.  This is the chain in which the
    first success wins except where a [value] field does not convert.  On
    the four payloads of the decoder scenario the values are 23.4, 21.7,
    19.2 and nothing. *)
Theorem decoder_follows_the_three_steps :
  (forall (float_of_str : string -> option float)
          (json_loads : string -> option json)
          (temp_json_path payload : string),
      decode_value float_of_str json_loads temp_json_path
        (PyStr.strip payload)
      = decodeNumeric float_of_str json_loads payload temp_json_path)
  /\ (forall (float_of_str : string -> option float)
             (json_loads : string -> option json)
             (temp_json_path payload : string),
        (forall obj : json,
            json_loads (PyStr.strip payload) = Some obj ->
            has_value_key obj = true ->
            float_of_value float_of_str (value_of obj) <> None) ->
        decode_value float_of_str json_loads temp_json_path
          (PyStr.strip payload)
        = first_success float_of_str json_loads payload temp_json_path)
  /\ decode_value PyModel.float_of_str PyModel.json_loads EmptyString
       (PyStr.strip "23.4") = Some 23.4%float
  /\ decode_value PyModel.float_of_str PyModel.json_loads EmptyString
       (PyStr.strip payload_value) = Some 21.7%float
  /\ decode_value PyModel.float_of_str PyModel.json_loads "BMP280.Temperature"
       (PyStr.strip payload_bmp280) = Some 19.2%float
  /\ decode_value PyModel.float_of_str PyModel.json_loads "BMP280.Temperature"
       (PyStr.strip "not a number") = None.
Proof.
  split; [| split].
  - intros. apply decode_refines_spec.
  - intros float_of_str json_loads temp_json_path payload Hok.
    rewrite decode_refines_spec. apply first_success_agrees. exact Hok.
  - repeat split; vm_compute; reflexivity.
Qed.

Lemma decoder_follows_the_three_steps_witness :
  first_success PyModel.float_of_str PyModel.json_loads payload_bmp280
    "BMP280.Temperature" = Some 19.2%float.
Proof.
  destruct decoder_follows_the_three_steps as (_ & Hfirst & _ & _ & Hbmp & _).
  rewrite <- Hfirst; [exact Hbmp|].
  intros obj Hj Hk. vm_compute in Hj. injection Hj as <-.
  discriminate Hk.
Defined.

(** C7, against the claim as stated: on the object
    [{"value": "abc", "t": 21.5}] with the path [t], the direct parse and
    the [value] field both fail and the path leads to 21.5, which the chain
    in which the first success wins returns; the handler decodes nothing. *)
Lemma first_success_differs_on_bad_value :
  attempt_scalar PyModel.float_of_str (PyStr.strip payload_bad_value) = None
  /\ attempt_value_key PyModel.float_of_str PyModel.json_loads
       (PyStr.strip payload_bad_value) = None
  /\ attempt_path PyModel.float_of_str PyModel.json_loads
       (PyStr.strip payload_bad_value) "t" = Some 21.5%float
  /\ first_success PyModel.float_of_str PyModel.json_loads
       payload_bad_value "t" = Some 21.5%float
  /\ decode_value PyModel.float_of_str PyModel.json_loads "t"
       (PyStr.strip payload_bad_value) = None.
Proof. vm_compute. repeat split. Qed.

(** C10: when the payload is a JSON object that has the key [value] and
    that field does not convert to a float, nothing is decoded, whatever
    the path, also a path that names a number of the same object: the
    exception leaves the [try] before the path is looked at. *)
Theorem bad_value_field_skips_the_path :
  forall (float_of_str : string -> option float)
         (json_loads : string -> option json)
         (temp_json_path s : string) (d : list (string * json)) (v : json),
    float_of_str s = None ->
    json_loads s = Some (JDict d) ->
    dict_get d "value" = Some v ->
    float_of_value float_of_str v = None ->
    decode_value float_of_str json_loads temp_json_path s = None.
Proof.
  intros float_of_str json_loads temp_json_path s d v Hf Hj Hv Hbad.
  rewrite (decode_value_key _ _ _ s d v Hf Hj Hv). exact Hbad.
Qed.

Lemma bad_value_field_skips_the_path_witness :
  PyModel.json_loads payload_bad_value
  = Some (JDict [("value", JStr "abc"); ("t", JFloat 21.5)])%string
  /\ float_of_value PyModel.float_of_str
       (_extract_by_path (JDict [("value", JStr "abc"); ("t", JFloat 21.5)])
          "t")%string
     = Some 21.5%float
  /\ decode_value PyModel.float_of_str PyModel.json_loads "t"
       payload_bad_value = None.
Proof.
  assert (Hj : PyModel.json_loads payload_bad_value
               = Some (JDict [("value", JStr "abc"); ("t", JFloat 21.5)])%string)
    by (vm_compute; reflexivity).
  split; [exact Hj|]. split; [vm_compute; reflexivity|].
  apply (bad_value_field_skips_the_path PyModel.float_of_str
           PyModel.json_loads "t" payload_bad_value
           [("value", JStr "abc"); ("t", JFloat 21.5)]%string (JStr "abc")).
  - vm_compute. reflexivity.
  - exact Hj.
  - reflexivity.
  - vm_compute. reflexivity.
Defined.

(** * Further properties of the code *)

(** ** Presence payloads *)

Lemma isspace_lower_char (c : ascii) :
  PyStr.isspace (PyStr.lower_char c) = PyStr.isspace c.
Proof. destruct c as [[] [] [] [] [] [] [] []]; reflexivity. Qed.

Lemma lower_char_idempotent (c : ascii) :
  PyStr.lower_char (PyStr.lower_char c) = PyStr.lower_char c.
Proof. destruct c as [[] [] [] [] [] [] [] []]; reflexivity. Qed.

Lemma lower_idempotent (s : string) :
  PyStr.lower (PyStr.lower s) = PyStr.lower s.
Proof.
  induction s as [| c r IH]; cbn; [reflexivity|].
  rewrite lower_char_idempotent, IH. reflexivity.
Qed.

Lemma lstrip_lower (s : string) :
  PyStr.lstrip (PyStr.lower s) = PyStr.lower (PyStr.lstrip s).
Proof.
  induction s as [| c r IH]; cbn; [reflexivity|].
  rewrite isspace_lower_char. destruct (PyStr.isspace c); [exact IH | reflexivity].
Qed.

Lemma rstrip_lower (s : string) :
  PyStr.rstrip (PyStr.lower s) = PyStr.lower (PyStr.rstrip s).
Proof.
  induction s as [| c r IH]; cbn; [reflexivity|].
  rewrite IH, isspace_lower_char.
  destruct (PyStr.rstrip r); cbn; [destruct (PyStr.isspace c) |]; reflexivity.
Qed.

Lemma lstrip_blank_app (pre s : string) :
  blank pre -> PyStr.lstrip (pre ++ s) = PyStr.lstrip s.
Proof.
  unfold blank. induction pre as [| c r IH]; cbn; [reflexivity|].
  destruct (PyStr.isspace c); [exact IH | discriminate].
Qed.

Lemma rstrip_blank (post : string) :
  blank post -> PyStr.rstrip post = EmptyString.
Proof.
  unfold blank. induction post as [| c r IH]; cbn; [reflexivity|].
  destruct (PyStr.isspace c); [| discriminate].
  intros H. rewrite (IH H). reflexivity.
Qed.

Lemma rstrip_app_blank (s post : string) :
  blank post -> PyStr.rstrip (s ++ post) = PyStr.rstrip s.
Proof.
  intros H. induction s as [| c r IH]; cbn.
  - apply rstrip_blank. exact H.
  - rewrite IH. reflexivity.
Qed.

Lemma strip_blank_around (pre s post : string) :
  blank pre -> blank post ->
  PyStr.strip (pre ++ s ++ post) = PyStr.strip s.
Proof.
  intros Hpre Hpost. unfold PyStr.strip. rewrite (lstrip_blank_app _ _ Hpre).
  induction s as [| c r IH]; cbn.
  - rewrite Hpost. reflexivity.
  - destruct (PyStr.isspace c); [exact IH|].
    apply (rstrip_app_blank (String c r) post Hpost).
Qed.

Lemma strip_lower (s : string) :
  PyStr.strip (PyStr.lower s) = PyStr.lower (PyStr.strip s).
Proof. unfold PyStr.strip. rewrite lstrip_lower, rstrip_lower. reflexivity. Qed.

(** X1: how a presence payload is read depends neither on the case of its
    letters nor on white space around it, for the handler and for
    [_coerce_bool_string] alike. *)
Theorem presence_payload_ignores_case_and_blanks :
  forall (pre p q post : string),
    blank pre -> blank post ->
    PyStr.lower p = PyStr.lower q ->
    want_on_of (pre ++ p ++ post) = want_on_of q
    /\ _coerce_bool_string (pre ++ p ++ post) = _coerce_bool_string q.
Proof.
  intros pre p q post Hpre Hpost Hcase.
  assert (H : PyStr.lower (PyStr.strip (pre ++ p ++ post))
              = PyStr.lower (PyStr.strip q)).
  { rewrite (strip_blank_around pre p post Hpre Hpost).
    rewrite <- !strip_lower, Hcase. reflexivity. }
  unfold want_on_of, _coerce_bool_string. cbv zeta. rewrite H. auto.
Qed.

Lemma presence_payload_ignores_case_and_blanks_witness :
  want_on_of (String (ascii_of_nat 9) " " ++ "On" ++ String (ascii_of_nat 10) EmptyString)
  = want_on_of "oN"
  /\ _coerce_bool_string
       (String (ascii_of_nat 9) " " ++ "On" ++ String (ascii_of_nat 10) EmptyString)
     = _coerce_bool_string "oN".
Proof.
  apply presence_payload_ignores_case_and_blanks; reflexivity.
Defined.

(** X2: the handler reads a payload as ON exactly when
    [_coerce_bool_string] makes it [True]; what the helper makes [False]
    and what it cannot classify are both read as OFF. *)
Theorem want_on_agrees_with_coerce_bool_string :
  forall payload : string,
    (want_on_of payload = true <-> _coerce_bool_string payload = Some true)
    /\ (_coerce_bool_string payload = Some false -> want_on_of payload = false)
    /\ (_coerce_bool_string payload = None -> want_on_of payload = false).
Proof.
  intros payload. unfold want_on_of, _coerce_bool_string. cbv zeta.
  destruct (PyStr.mem _ ["1"; "true"; "on"; "yes"]%string).
  - repeat split; auto; discriminate.
  - destruct (PyStr.mem _ ["0"; "false"; "off"; "no"]%string);
      repeat split; auto; discriminate.
Qed.

(** ** What the handlers leave alone *)

Lemma same_settings_refl (h : hass) : same_settings h h.
Proof. unfold same_settings. repeat split. Qed.

Lemma same_settings_trans (h1 h2 h3 : hass) :
  same_settings h1 h2 -> same_settings h2 h3 -> same_settings h1 h3.
Proof.
  unfold same_settings.
  intros (a1 & a2 & a3 & a4 & a5 & a6 & a7 & a8 & a9 & a10)
         (b1 & b2 & b3 & b4 & b5 & b6 & b7 & b8 & b9 & b10).
  repeat split; etransitivity; eassumption.
Qed.

Lemma handle_presence_frame (payload : string) (loop_time : float) (h : hass) :
  let h' := _handle_presence payload loop_time h in
  same_settings h h'
  /\ temperature_of h' = temperature_of h
  /\ called h' = (called h ++ listeners (data h))%list.
Proof.
  cbv zeta. unfold same_settings, temperature_of, capacity_of, _handle_presence.
  cbn [data notify set_filters st_filters last_temp_avg listeners device_id
       temp_topic presence_topic called].
  destruct (presence_update_config (st_filters (data h)) (want_on_of payload)
              (PrimFloat.mul loop_time 1000))
    as (Hd & Hh & Hs & Hw & Hm & Hp).
  rewrite Hd, Hh, Hs, Hw, Hm, Hp. repeat split.
Qed.

Section Frames.

Variable float_of_str : string -> option float.
Variable json_loads : string -> option json.
Variable temp_json_path : string.

Local Abbreviation handle := (_handle_temp float_of_str json_loads temp_json_path).
Local Abbreviation run := (deliver_all float_of_str json_loads temp_json_path).
Local Abbreviation decoded := (readings float_of_str json_loads temp_json_path).
Local Abbreviation decode := (decode_value float_of_str json_loads temp_json_path).

Lemma handle_temp_frame (payload : string) (h h' : hass) :
  handle payload h = Returned h' ->
  same_settings h h'
  /\ presence_of h' = presence_of h
  /\ called h'
     = (called h
        ++ match decode (PyStr.strip payload) with
           | Some _ => listeners (data h)
           | None => []
           end)%list.
Proof.
  unfold _handle_temp.
  destruct (decode (PyStr.strip payload)) as [v |].
  - destruct (truediv_len _ _); [| discriminate].
    intros H. injection H as <-.
    unfold same_settings, presence_of, capacity_of. cbn. repeat split.
  - intros H. injection H as <-. rewrite app_nil_r.
    split; [apply same_settings_refl | split; reflexivity].
Qed.

(** The calls a run of messages makes: the listeners, in order, once for
    each presence message and once for each temperature decoded. *)
Lemma run_frame (ms : list message) :
  forall h h' : hass,
    run ms h = Returned h' ->
    same_settings h h'
    /\ called h'
       = (called h
          ++ List.concat (repeat (listeners (data h))
                       (presence_count ms + List.length (decoded ms))))%list.
Proof.
  induction ms as [| m ms IH]; intros h h' Hrun.
  - cbn in Hrun. injection Hrun as <-. cbn. rewrite app_nil_r.
    split; [apply same_settings_refl | reflexivity].
  - cbn [deliver_all] in Hrun.
    destruct (deliver float_of_str json_loads temp_json_path m h)
      as [h1 | e] eqn:Hm; [| discriminate].
    destruct (IH h1 h' Hrun) as (Hs & Hc).
    assert (Hstep : same_settings h h1
                    /\ called h1
                       = (called h
                          ++ List.concat (repeat (listeners (data h))
                               (presence_count [m]
                                + List.length (decoded [m]))))%list).
    { destruct m as [payload | payload loop_time]; cbn in Hm.
      - destruct (handle_temp_frame payload h h1 Hm) as (H1 & _ & H3).
        split; [exact H1|]. rewrite H3. cbn.
        destruct (decode (PyStr.strip payload)); cbn;
          rewrite ?app_nil_r; reflexivity.
      - injection Hm as <-.
        destruct (handle_presence_frame payload loop_time h) as (H1 & _ & H3).
        split; [exact H1|]. rewrite H3. cbn. rewrite app_nil_r. reflexivity. }
    destruct Hstep as (Hs1 & Hc1).
    split; [exact (same_settings_trans h h1 h' Hs1 Hs)|].
    rewrite Hc, Hc1.
    assert (Hl : listeners (data h1) = listeners (data h))
      by (apply Hs1).
    rewrite Hl, <- app_assoc, <- concat_app, <- repeat_app. f_equal. f_equal.
    f_equal. destruct m as [payload | payload loop_time]; cbn.
    + destruct (decode (PyStr.strip payload)); cbn; lia.
    + lia.
Qed.

End Frames.

(** X3: no run of messages changes the configured windows and threshold,
    the capacity of the deque, the device's identity or the registered
    listeners, and none ever writes the key [last_published_temp]. *)
Theorem messages_never_change_settings :
  forall (float_of_str : string -> option float)
         (json_loads : string -> option json) (temp_json_path : string)
         (ms : list message) (h h' : hass),
    deliver_all float_of_str json_loads temp_json_path ms h = Returned h' ->
    same_settings h h'.
Proof.
  intros float_of_str json_loads temp_json_path ms h h' Hrun.
  exact (proj1 (run_frame _ _ _ ms h h' Hrun)).
Qed.

Lemma messages_never_change_settings_witness :
  exists h' : hass,
    deliver_all PyModel.float_of_str PyModel.json_loads EmptyString
      [Temperature "21.5"; Presence "on" 1%float; Temperature "x"]
      (book_host [7%nat]) = Returned h'
    /\ same_settings (book_host [7%nat]) h'.
Proof.
  destruct (deliver_all PyModel.float_of_str PyModel.json_loads EmptyString
              [Temperature "21.5"; Presence "on" 1%float; Temperature "x"]
              (book_host [7%nat])) as [h' | e] eqn:E;
    [| vm_compute in E; discriminate E].
  exists h'. split; [reflexivity|].
  exact (messages_never_change_settings _ _ _ _ _ _ E).
Defined.

(** X4: over any run of messages the listeners are called, in registration
    order, once for every presence message and once for every temperature
    message from which a value is decoded, and never otherwise. *)
Theorem calls_follow_messages :
  forall (float_of_str : string -> option float)
         (json_loads : string -> option json) (temp_json_path : string)
         (ms : list message) (h h' : hass),
    deliver_all float_of_str json_loads temp_json_path ms h = Returned h' ->
    called h'
    = (called h
       ++ List.concat
            (repeat (listeners (data h))
               (presence_count ms
                + List.length
                    (readings float_of_str json_loads temp_json_path ms))))%list.
Proof.
  intros float_of_str json_loads temp_json_path ms h h' Hrun.
  exact (proj2 (run_frame _ _ _ ms h h' Hrun)).
Qed.

Lemma calls_follow_messages_witness :
  exists h' : hass,
    deliver_all PyModel.float_of_str PyModel.json_loads EmptyString
      [Temperature "21.5"; Presence "on" 1%float; Temperature "x"]
      (book_host [7%nat; 9%nat]) = Returned h'
    /\ called h' = [7%nat; 9%nat; 7%nat; 9%nat].
Proof.
  destruct (deliver_all PyModel.float_of_str PyModel.json_loads EmptyString
              [Temperature "21.5"; Presence "on" 1%float; Temperature "x"]
              (book_host [7%nat; 9%nat])) as [h' | e] eqn:E;
    [| vm_compute in E; discriminate E].
  exists h'. split; [reflexivity|].
  rewrite (calls_follow_messages _ _ _ _ _ _ E). vm_compute. reflexivity.
Defined.

(** ** Invariants of the presence state *)

Lemma presence_update_keeps_stamps (f : filters) (want_on : bool)
    (now_ms : float) :
  (presence_state f = true ->
   presence_last_on_ms f = presence_last_change_ms f) ->
  let f' := presence_update want_on now_ms f in
  presence_state f' = true ->
  presence_last_on_ms f' = presence_last_change_ms f'.
Proof.
  intros Hinv. cbv zeta. unfold presence_update.
  destruct (negb (Bool.eqb want_on (presence_state f)));
    [ destruct (PyNum.float_ge_int _ (presence_debounce_ms f)); [destruct want_on|]
    | destruct (presence_state f && _) ];
    cbn; intros H; try reflexivity; try discriminate H; auto.
Qed.

(** X5: from a started entry, whenever presence is ON after a run of
    messages, [presence_last_on_ms] and [presence_last_change_ms] are the
    same instant: the hold and the debounce windows of an ON state start
    together. *)
Theorem on_state_stamps_coincide :
  forall (float_of_str : string -> option float)
         (json_loads : string -> option json) (temp_json_path : string)
         (d : entry_data) (ls : list callback) (ms : list message)
         (h0 h' : hass),
    started d ls = Returned h0 ->
    deliver_all float_of_str json_loads temp_json_path ms h0 = Returned h' ->
    presence_state (st_filters (data h')) = true ->
    presence_last_on_ms (st_filters (data h'))
    = presence_last_change_ms (st_filters (data h')).
Proof.
  intros float_of_str json_loads temp_json_path d ls ms h0 h' Hstart.
  assert (H0 : presence_state (st_filters (data h0)) = true ->
               presence_last_on_ms (st_filters (data h0))
               = presence_last_change_ms (st_filters (data h0))).
  { unfold started, async_setup_entry in Hstart.
    destruct (get (CONF_TEMP_WINDOW d) DEFAULT_TEMP_WINDOW <? 0);
      [discriminate|].
    injection Hstart as <-. cbn. discriminate. }
  clear Hstart. revert h0 H0.
  induction ms as [| m ms IH]; intros h0 H0 Hrun.
  - cbn in Hrun. injection Hrun as <-. exact H0.
  - cbn [deliver_all] in Hrun.
    destruct (deliver float_of_str json_loads temp_json_path m h0)
      as [h1 | e] eqn:Hm; [| discriminate].
    apply (IH h1); [| exact Hrun].
    destruct m as [payload | payload loop_time]; cbn in Hm.
    + destruct (handle_temp_frame _ _ _ payload h0 h1 Hm) as (_ & Hp & _).
      unfold presence_of in Hp. injection Hp as -> -> ->. exact H0.
    + injection Hm as <-.
      apply (presence_update_keeps_stamps (st_filters (data h0))). exact H0.
Qed.

Lemma on_state_stamps_coincide_witness :
  exists h' : hass,
    deliver_all PyModel.float_of_str PyModel.json_loads EmptyString
      [Presence "on" 1%float; Temperature "21.5"; Presence "on" 2%float]
      (book_host []) = Returned h'
    /\ presence_last_on_ms (st_filters (data h'))
       = presence_last_change_ms (st_filters (data h')).
Proof.
  destruct (deliver_all PyModel.float_of_str PyModel.json_loads EmptyString
              [Presence "on" 1%float; Temperature "21.5"; Presence "on" 2%float]
              (book_host [])) as [h' | e] eqn:E;
    [| vm_compute in E; discriminate E].
  exists h'. split; [reflexivity|].
  apply (on_state_stamps_coincide _ _ _ book_entry [] _ (book_host []) h'
           (started_book []) E).
  vm_compute in E. injection E as <-. reflexivity.
Defined.

Lemma presence_update_off_reading_when_off (f : filters) (now_ms : float) :
  presence_state f = false -> presence_update false now_ms f = f.
Proof. intros H. unfold presence_update. rewrite H. reflexivity. Qed.

(** X6: presence never turns ON by itself: from an OFF state, a run of
    messages none of which reads as ON leaves the state OFF and both
    stamps as they were. *)
Theorem presence_stays_off_without_on_reading :
  forall (float_of_str : string -> option float)
         (json_loads : string -> option json) (temp_json_path : string)
         (ms : list message) (h h' : hass),
    presence_state (st_filters (data h)) = false ->
    (forall (payload : string) (loop_time : float),
        In (Presence payload loop_time) ms -> want_on_of payload = false) ->
    deliver_all float_of_str json_loads temp_json_path ms h = Returned h' ->
    presence_of h' = presence_of h.
Proof.
  intros float_of_str json_loads temp_json_path ms.
  induction ms as [| m ms IH]; intros h h' Hoff Hms Hrun.
  - cbn in Hrun. injection Hrun as <-. reflexivity.
  - cbn [deliver_all] in Hrun.
    destruct (deliver float_of_str json_loads temp_json_path m h)
      as [h1 | e] eqn:Hm; [| discriminate].
    assert (Hstep : presence_of h1 = presence_of h).
    { destruct m as [payload | payload loop_time]; cbn in Hm.
      - apply (handle_temp_frame _ _ _ payload h h1 Hm).
      - injection Hm as <-. unfold presence_of, _handle_presence.
        cbn [data notify set_filters st_filters].
        rewrite (Hms payload loop_time (or_introl eq_refl)).
        rewrite (presence_update_off_reading_when_off _ _ Hoff).
        reflexivity. }
    rewrite <- Hstep. apply IH; [| | exact Hrun].
    + unfold presence_of in Hstep. injection Hstep as -> _ _. exact Hoff.
    + intros payload loop_time Hin. apply (Hms payload loop_time).
      right. exact Hin.
Qed.

Lemma presence_stays_off_without_on_reading_witness :
  exists h' : hass,
    deliver_all PyModel.float_of_str PyModel.json_loads EmptyString
      [Presence "off" 1%float; Temperature "21.5"; Presence "maybe" 9%float]
      (book_host [7%nat]) = Returned h'
    /\ presence_of h' = (false, 0%float, 0%float).
Proof.
  destruct (deliver_all PyModel.float_of_str PyModel.json_loads EmptyString
              [Presence "off" 1%float; Temperature "21.5";
               Presence "maybe" 9%float]
              (book_host [7%nat])) as [h' | e] eqn:E;
    [| vm_compute in E; discriminate E].
  exists h'. split; [reflexivity|].
  apply (presence_stays_off_without_on_reading
           PyModel.float_of_str PyModel.json_loads EmptyString
           [Presence "off" 1%float; Temperature "21.5";
            Presence "maybe" 9%float]
           (book_host [7%nat]) h' eq_refl); [| exact E].
  intros payload loop_time [H | [H | [H | []]]];
    try discriminate H; injection H as <- _; reflexivity.
Defined.

(** ** The two streams are independent *)

Lemma presence_update_set_temp_samples (want_on : bool) (now_ms : float)
    (s : deque) (f : filters) :
  presence_update want_on now_ms (set_temp_samples s f)
  = set_temp_samples s (presence_update want_on now_ms f).
Proof.
  unfold presence_update. cbn [set_temp_samples presence_state
    presence_last_change_ms presence_debounce_ms presence_last_on_ms
    presence_hold_ms].
  destruct (negb (Bool.eqb want_on (presence_state f)));
    [ destruct (PyNum.float_ge_int _ (presence_debounce_ms f)); [destruct want_on|]
    | destruct (presence_state f && _) ];
    reflexivity.
Qed.

(** X7: a temperature message and a presence message may be delivered in
    either order: the state, the calls made and a raised exception are the
    same. *)
Theorem temperature_and_presence_commute :
  forall (float_of_str : string -> option float)
         (json_loads : string -> option json) (temp_json_path : string)
         (payload_t payload_p : string) (loop_time : float) (h : hass),
    deliver_all float_of_str json_loads temp_json_path
      [Temperature payload_t; Presence payload_p loop_time] h
    = deliver_all float_of_str json_loads temp_json_path
        [Presence payload_p loop_time; Temperature payload_t] h.
Proof.
  intros float_of_str json_loads temp_json_path payload_t payload_p
    loop_time h.
  cbn [deliver_all deliver]. unfold _handle_temp.
  assert (Hs : temp_samples (st_filters (data (_handle_presence payload_p loop_time h)))
               = temp_samples (st_filters (data h)))
    by (apply (presence_update_config (st_filters (data h)))).
  rewrite Hs.
  destruct (decode_value float_of_str json_loads temp_json_path
              (PyStr.strip payload_t)) as [v |]; [| reflexivity].
  destruct (truediv_len _ _) as [avg | e]; [| reflexivity].
  unfold _handle_presence, notify. cbn.
  rewrite presence_update_set_temp_samples, <- app_assoc. reflexivity.
Qed.

(** ** Reads of the temperature entity *)

Lemma is_nan_Prim2SF (x : float) :
  PrimFloat.is_nan x = true -> Prim2SF x = S754_nan.
Proof. intros H. unfold Prim2SF. rewrite H. reflexivity. Qed.

(** A difference with a NaN on either side passes no threshold. *)
Lemma nan_difference_below_threshold (x y t : float) :
  PrimFloat.is_nan x = true \/ PrimFloat.is_nan y = true ->
  PyNum.float_ge (PrimFloat.abs (PrimFloat.sub x y)) t = false.
Proof.
  intros H. unfold PyNum.float_ge.
  rewrite leb_spec, abs_spec, sub_spec. unfold SF64sub, SFsub.
  assert (E : match Prim2SF x, Prim2SF y with
              | S754_nan, _ | _, S754_nan => True
              | _, _ => False
              end).
  { destruct H as [H | H]; rewrite (is_nan_Prim2SF _ H);
      [| destruct (Prim2SF x)]; exact I. }
  destruct (Prim2SF x), (Prim2SF y); try contradiction E;
    cbn [SFabs]; unfold SFleb, SFcompare; destruct (Prim2SF t); reflexivity.
Qed.

(** X8: reading the entity again without a new message changes nothing:
    the second read returns the value of the first and leaves the entity
    as the first left it. *)
Theorem reading_twice_is_reading_once :
  forall (d : entry_data) (st : entry_state) (self : DualTempSensor),
    native_value d st (snd (native_value d st self))
    = native_value d st self.
Proof.
  intros d st [lp]. unfold native_value.
  destruct (last_temp_avg st) as [val |]; [| reflexivity].
  cbn [snd _last_published].
  destruct lp as [p |].
  - destruct (PyNum.float_ge (PrimFloat.abs (PrimFloat.sub val p)) _) eqn:Hg;
      cbn [_last_published].
    + match goal with
      | |- context [PyNum.float_ge ?a ?b] => destruct (PyNum.float_ge a b)
      end; reflexivity.
    + rewrite Hg. reflexivity.
  - cbn [_last_published].
    match goal with
    | |- context [PyNum.float_ge ?a ?b] => destruct (PyNum.float_ge a b)
    end; reflexivity.
Qed.

(** X9: a NaN never passes the threshold: a NaN average is not published
    over a value already published, and once a NaN is published no later
    average replaces it, whatever the threshold. *)
Theorem nan_blocks_the_publish_gate :
  forall (d : entry_data) (st : entry_state) (self : DualTempSensor)
         (val p : float),
    last_temp_avg st = Some val ->
    _last_published self = Some p ->
    PrimFloat.is_nan val = true \/ PrimFloat.is_nan p = true ->
    native_value d st self = (Some p, self).
Proof.
  intros d st self val p Havg Hp Hnan.
  rewrite (native_value_gate d st self val Havg). cbv zeta.
  rewrite Hp, (nan_difference_below_threshold val p _ Hnan), Hp.
  reflexivity.
Qed.

Lemma nan_blocks_the_publish_gate_witness :
  native_value zero_delta_entry
    (set_last_temp_avg (Some 21.5%float) (data (book_host [])))
    {| _last_published := Some nan |}
  = (Some nan, {| _last_published := Some nan |}).
Proof.
  apply (nan_blocks_the_publish_gate zero_delta_entry _ _ 21.5%float nan);
    [reflexivity | reflexivity | right; reflexivity].
Defined.

Section Published.

Variable float_of_str : string -> option float.
Variable json_loads : string -> option json.
Variable temp_json_path : string.
Variable d : entry_data.

Local Abbreviation events := (run_events float_of_str json_loads temp_json_path d).
Local Abbreviation seen := (averages float_of_str json_loads temp_json_path).

(** A read publishes the current average or keeps what was published. *)
Lemma native_value_published (st : entry_state) (self : DualTempSensor) :
  _last_published (snd (native_value d st self)) = _last_published self
  \/ (_last_published (snd (native_value d st self)) = last_temp_avg st
      /\ last_temp_avg st <> None).
Proof.
  unfold native_value.
  destruct (last_temp_avg st) as [val |]; [| left; reflexivity].
  cbn [snd].
  match goal with
  | |- context [if ?c then _ else _] => destruct c
  end;
    [right; split; [reflexivity | discriminate] | left; reflexivity].
Qed.

Lemma run_events_published (es : list event) :
  forall (h h' : hass) (self self' : DualTempSensor),
    events es h self = Returned (h', self') ->
    _last_published self' = _last_published self
    \/ (In (_last_published self') (seen es h)
        /\ _last_published self' <> None).
Proof.
  induction es as [| e es IH]; intros h h' self self' Hrun.
  - cbn in Hrun. injection Hrun as <- <-. left. reflexivity.
  - destruct e as [m |]; cbn [run_events] in Hrun.
    + destruct (deliver float_of_str json_loads temp_json_path m h)
        as [h1 | x] eqn:Hm; [| discriminate].
      destruct (IH h1 h' self self' Hrun) as [H | (H & Hn)];
        [left; exact H | right; split; [| exact Hn]].
      cbn [averages]. rewrite Hm. right. exact H.
    + destruct (IH h h' _ self' Hrun) as [H | (H & Hn)].
      * destruct (native_value_published (data h) self) as [H' | (H' & Hn')].
        -- left. rewrite H. exact H'.
        -- right. rewrite H, H'. split; [| exact Hn'].
           left. reflexivity.
      * right. split; [| exact Hn]. cbn [averages]. right. exact H.
Qed.

End Published.

(** X10: whatever messages arrive and whenever the entity is read, the
    value it has published is either the one it started with or one of the
    values [last_temp_avg] took along the way, never anything else, and
    never [None] once something is published. *)
Theorem published_value_is_a_past_average :
  forall (float_of_str : string -> option float)
         (json_loads : string -> option json) (temp_json_path : string)
         (d : entry_data) (es : list event) (h h' : hass)
         (self self' : DualTempSensor),
    run_events float_of_str json_loads temp_json_path d es h self
    = Returned (h', self') ->
    _last_published self' = _last_published self
    \/ (In (_last_published self')
          (averages float_of_str json_loads temp_json_path es h)
        /\ _last_published self' <> None).
Proof.
  intros float_of_str json_loads temp_json_path d es h h' self self'.
  apply run_events_published.
Qed.

Lemma published_value_is_a_past_average_witness :
  exists (h' : hass) (self' : DualTempSensor),
    run_events PyModel.float_of_str PyModel.json_loads EmptyString book_entry
      [Deliver (Temperature "20.0"); Read; Deliver (Temperature "20.5");
       Read; Deliver (Temperature "21.0"); Read]
      (book_host [7%nat]) {| _last_published := None |}
    = Returned (h', self')
    /\ _last_published self' = Some 20.5%float
    /\ In (Some 20.5%float)
         (averages PyModel.float_of_str PyModel.json_loads EmptyString
            [Deliver (Temperature "20.0"); Read;
             Deliver (Temperature "20.5"); Read;
             Deliver (Temperature "21.0"); Read]
            (book_host [7%nat])).
Proof.
  destruct (run_events PyModel.float_of_str PyModel.json_loads EmptyString
              book_entry
              [Deliver (Temperature "20.0"); Read;
               Deliver (Temperature "20.5"); Read;
               Deliver (Temperature "21.0"); Read]
              (book_host [7%nat]) {| _last_published := None |})
    as [[h' self'] | e] eqn:E; [| vm_compute in E; discriminate E].
  exists h', self'. split; [reflexivity|].
  assert (Hp : _last_published self' = Some 20.5%float)
    by (vm_compute in E; injection E as _ <-; reflexivity).
  split; [exact Hp|].
  destruct (published_value_is_a_past_average _ _ _ _ _ _ _ _ _ E)
    as [H | (H & _)].
  - rewrite Hp in H. discriminate H.
  - rewrite Hp in H. exact H.
Defined.

(** ** Paths into a JSON object *)

Lemma walk_none (parts : list string) : walk JNone parts = JNone.
Proof. destruct parts; reflexivity. Qed.

Lemma walk_app (cur : json) (ps qs : list string) :
  walk cur (ps ++ qs) = walk (walk cur ps) qs.
Proof.
  revert cur. induction ps as [| p ps IH]; intros cur; cbn; [reflexivity|].
  destruct cur; try (symmetry; apply walk_none).
  destruct (dict_get d p); [apply IH | symmetry; apply walk_none].
Qed.

Lemma split_app_sep (sep : ascii) (p q : string) :
  PyStr.split sep (p ++ String sep q)
  = (PyStr.split sep p ++ PyStr.split sep q)%list.
Proof.
  induction p as [| c r IH]; cbn.
  - rewrite Ascii.eqb_refl. reflexivity.
  - destruct (Ascii.eqb c sep).
    + rewrite IH. reflexivity.
    + rewrite IH. destruct (PyStr.split sep r) eqn:E;
        [contradiction (split_nonempty sep r E) | reflexivity].
Qed.

(** X11: a path splits at any of its dots: looking up [p.q] is looking up
    [q] in what [p] leads to, and a part of the path that leads nowhere
    makes the whole path lead nowhere. *)
Theorem extract_by_path_composes :
  forall (obj : json) (p q : string),
    p <> EmptyString -> q <> EmptyString ->
    _extract_by_path obj (p ++ String "." q)
    = _extract_by_path (_extract_by_path obj p) q.
Proof.
  intros obj p q Hp Hq.
  destruct p as [| c r]; [contradiction Hp; reflexivity|].
  destruct q as [| c' r']; [contradiction Hq; reflexivity|].
  unfold _extract_by_path at 1 2.
  change (String c r ++ String "." (String c' r'))%string
    with (String c (r ++ String "." (String c' r'))).
  change (String c (r ++ String "." (String c' r')))
    with (String c r ++ String "." (String c' r'))%string at 2.
  rewrite split_app_sep, walk_app. reflexivity.
Qed.

Lemma extract_by_path_composes_witness :
  _extract_by_path
    (JDict [("BMP280", JDict [("Temperature", JFloat 19.2)])])%string
    ("BMP280" ++ String "." "Temperature")
  = _extract_by_path
      (_extract_by_path
         (JDict [("BMP280", JDict [("Temperature", JFloat 19.2)])])%string
         "BMP280")
      "Temperature".
Proof.
  apply extract_by_path_composes; discriminate.
Defined.

(** X12: [_extract_by_path] answers [None], and raises nothing, whenever
    the path is empty, the value is not a dict, or the first segment of the
    path is not one of its keys. *)
Theorem extract_by_path_finds_nothing :
  forall (obj : json) (path : string),
    (path = EmptyString
     \/ is_dict obj = false
     \/ (exists d : list (string * json),
           obj = JDict d
           /\ dict_get d (hd EmptyString (PyStr.split "." path)) = None)) ->
    _extract_by_path obj path = JNone.
Proof.
  intros obj path [H | [H | (d & Hd & Hk)]].
  - subst path. reflexivity.
  - destruct path as [| c r]; [reflexivity|]. unfold _extract_by_path.
    destruct (PyStr.split "." (String c r)) eqn:E;
      [contradiction (split_nonempty _ _ E)|].
    destruct obj; try reflexivity. discriminate H.
  - subst obj. destruct path as [| c r]; [reflexivity|].
    unfold _extract_by_path.
    destruct (PyStr.split "." (String c r)) eqn:E;
      [contradiction (split_nonempty _ _ E)|].
    cbn in Hk. cbn. rewrite Hk. reflexivity.
Qed.

Lemma extract_by_path_finds_nothing_witness :
  _extract_by_path
    (JDict [("BMP280", JDict [("Temperature", JFloat 19.2)])])%string
    "SHT31.Temperature"
  = JNone.
Proof.
  apply extract_by_path_finds_nothing. right. right.
  exists [("BMP280", JDict [("Temperature", JFloat 19.2)])]%string.
  split; reflexivity.
Defined.

(** ** More on the decoder *)

(** X13: a payload that is JSON but not an object (a quoted number, an
    array, [true], [null]) and that [float] refuses decodes to nothing,
    whatever the path. *)
Theorem non_object_json_decodes_to_nothing :
  forall (float_of_str : string -> option float)
         (json_loads : string -> option json)
         (temp_json_path s : string) (obj : json),
    float_of_str s = None ->
    json_loads s = Some obj ->
    is_dict obj = false ->
    decode_value float_of_str json_loads temp_json_path s = None.
Proof.
  intros float_of_str json_loads temp_json_path s obj Hf Hj Hd.
  unfold decode_value, try_json. rewrite Hf, Hj.
  destruct obj; try discriminate Hd; reflexivity.
Qed.

Lemma non_object_json_decodes_to_nothing_witness :
  PyModel.json_loads (dq ++ "21.5" ++ dq) = Some (JStr "21.5")
  /\ decode_value PyModel.float_of_str PyModel.json_loads "value"
       (dq ++ "21.5" ++ dq) = None.
Proof.
  assert (Hj : PyModel.json_loads (dq ++ "21.5" ++ dq) = Some (JStr "21.5"))
    by (vm_compute; reflexivity).
  split; [exact Hj|].
  apply (non_object_json_decodes_to_nothing PyModel.float_of_str
           PyModel.json_loads "value" (dq ++ "21.5" ++ dq) (JStr "21.5"));
    [vm_compute; reflexivity | exact Hj | reflexivity].
Defined.

(** X14: the configured path matters only for a JSON object without the
    key [value]: a payload that [float] parses, that is not JSON, that is
    not an object, or that is an object with the key [value] decodes to the
    same result under any two paths. *)
Theorem path_matters_only_without_value_key :
  forall (float_of_str : string -> option float)
         (json_loads : string -> option json)
         (path1 path2 s : string),
    (float_of_str s <> None
     \/ json_loads s = None
     \/ (exists obj : json,
           json_loads s = Some obj
           /\ (is_dict obj = false \/ has_value_key obj = true))) ->
    decode_value float_of_str json_loads path1 s
    = decode_value float_of_str json_loads path2 s.
Proof.
  intros float_of_str json_loads path1 path2 s H.
  unfold decode_value, try_json.
  destruct (float_of_str s) as [x |]; [reflexivity|].
  destruct H as [H | [H | (obj & Hj & H)]].
  - contradiction H. reflexivity.
  - rewrite H. reflexivity.
  - rewrite Hj. destruct H as [H | H].
    + destruct obj; try discriminate H;
        cbn [has_value_key is_dict andb];
        rewrite ?Bool.andb_false_r; reflexivity.
    + rewrite H. destruct (float_of_value float_of_str (value_of obj));
        reflexivity.
Qed.

Lemma path_matters_only_without_value_key_witness :
  decode_value PyModel.float_of_str PyModel.json_loads "t" payload_bad_value
  = decode_value PyModel.float_of_str PyModel.json_loads EmptyString
      payload_bad_value.
Proof.
  apply path_matters_only_without_value_key. right. right.
  exists (JDict [("value", JStr "abc"); ("t", JFloat 21.5)])%string.
  split; [vm_compute; reflexivity | right; reflexivity].
Defined.

(** X15: what [float] makes of a [value] field that is not a number: a
    JSON [true] is the temperature 1.0 and [false] 0.0; [null], an array
    and an object give nothing; an integer gives its nearest float, and
    nothing when it is too large for one. *)
Theorem value_field_coercions :
  forall (float_of_str : string -> option float)
         (json_loads : string -> option json)
         (temp_json_path s : string) (d : list (string * json)) (v : json),
    float_of_str s = None ->
    json_loads s = Some (JDict d) ->
    dict_get d "value" = Some v ->
    decode_value float_of_str json_loads temp_json_path s
    = match v with
      | JBool true => Some 1%float
      | JBool false => Some 0%float
      | JNone | JList _ | JDict _ => None
      | JInt n => PyNum.float_of_int n
      | JFloat x => Some x
      | JStr t => float_of_str t
      end.
Proof.
  intros float_of_str json_loads temp_json_path s d v Hf Hj Hv.
  rewrite (decode_value_key _ _ _ s d v Hf Hj Hv).
  destruct v as [| [] | | | | |]; reflexivity.
Qed.

Lemma value_field_coercions_witness :
  decode_value PyModel.float_of_str PyModel.json_loads EmptyString
    ("{" ++ dq ++ "value" ++ dq ++ ": true}")
  = Some 1%float.
Proof.
  apply (value_field_coercions PyModel.float_of_str PyModel.json_loads
           EmptyString ("{" ++ dq ++ "value" ++ dq ++ ": true}")
           [("value", JBool true)]%string (JBool true));
    [vm_compute; reflexivity | vm_compute; reflexivity | reflexivity].
Defined.

(** ** A window of no sample *)

(** X16: with a deque of capacity zero every temperature from which a
    value is decoded raises [ZeroDivisionError] out of the handler, the
    mean being taken over no sample; a payload that decodes to nothing is
    still ignored. *)
Theorem empty_window_raises_on_every_value :
  forall (float_of_str : string -> option float)
         (json_loads : string -> option json) (temp_json_path : string)
         (payload : string) (h : hass),
    capacity_of h = O ->
    samples_of h = [] ->
    _handle_temp float_of_str json_loads temp_json_path payload h
    = match decode_value float_of_str json_loads temp_json_path
              (PyStr.strip payload) with
      | Some _ => Raised ZeroDivisionError
      | None => Returned h
      end.
Proof.
  intros float_of_str json_loads temp_json_path payload h Hcap Hitems.
  unfold _handle_temp, append.
  unfold capacity_of in Hcap. unfold samples_of in Hitems.
  destruct (decode_value float_of_str json_loads temp_json_path
              (PyStr.strip payload)); [| reflexivity].
  cbn [items]. rewrite Hcap, Hitems. reflexivity.
Qed.

Lemma empty_window_raises_on_every_value_witness :
  exists h0 : hass,
    started
      {| CONF_DEVICE_ID := "dev1";
         CONF_TEMP_TOPIC := "home/book2/dev1/temperature";
         CONF_PRESENCE_TOPIC := "home/book2/dev1/presence";
         CONF_TEMP_JSON_PATH := None;
         CONF_TEMP_WINDOW := Some 0;
         CONF_TEMP_MIN_DELTA := None;
         CONF_DEBOUNCE_MS := None;
         CONF_HOLD_MS := None |} [7%nat]
    = Returned h0
    /\ _handle_temp PyModel.float_of_str PyModel.json_loads EmptyString
         "21.5" h0
       = Raised ZeroDivisionError.
Proof.
  eexists. split; [reflexivity|].
  rewrite empty_window_raises_on_every_value; [| reflexivity | reflexivity].
  vm_compute. reflexivity.
Defined.

(** ** Registration of the entities *)

Lemma registered_In (cb : callback) (ls : list callback) :
  registered cb ls = true <-> In cb ls.
Proof.
  unfold registered. rewrite existsb_exists. split.
  - intros (x & Hin & Heq). apply Nat.eqb_eq in Heq. subst x. exact Hin.
  - intros Hin. exists cb. split; [exact Hin | apply Nat.eqb_refl].
Qed.

Lemma count_occ_snoc (ls : list callback) (a cb : callback) :
  count_occ Nat.eq_dec (ls ++ [a]) cb
  = (count_occ Nat.eq_dec ls cb + (if Nat.eq_dec a cb then 1 else 0))%nat.
Proof. rewrite count_occ_app. cbn. destruct (Nat.eq_dec a cb); reflexivity. Qed.

(** A presence message calls a listener as many times as it is
    registered. *)
Lemma handle_presence_invocations (payload : string) (loop_time : float)
    (h : hass) (cb : callback) :
  invocations h (_handle_presence payload loop_time h) cb
  = count_occ Nat.eq_dec (listeners (data h)) cb.
Proof.
  unfold invocations.
  replace (called (_handle_presence payload loop_time h))
    with (called h ++ listeners (data h))%list by reflexivity.
  rewrite count_occ_app, Nat.add_comm. apply Nat.add_sub.
Qed.

(** X17: the presence entity registers its listener at most once: after
    [async_added_to_hass] the listener is registered, listeners that were
    registered once each still are, adding the entity again changes no
    registration, and every presence message then calls the listener
    exactly once. *)
Theorem presence_entity_registers_once :
  forall (cb : callback) (h : hass),
    NoDup (listeners (data h)) ->
    let h1 := async_added_to_hass cb h in
    NoDup (listeners (data h1))
    /\ count_occ Nat.eq_dec (listeners (data h1)) cb = 1%nat
    /\ listeners (data (async_added_to_hass cb h1)) = listeners (data h1)
    /\ (forall (payload : string) (loop_time : float),
          invocations h1 (_handle_presence payload loop_time h1) cb = 1%nat).
Proof.
  intros cb h Hnd h1.
  assert (Hls : NoDup (listeners (data h1)) /\ In cb (listeners (data h1))).
  { subst h1. unfold async_added_to_hass. cbn [data listeners].
    destruct (registered cb (listeners (data h))) eqn:E.
    - split; [exact Hnd | apply registered_In; exact E].
    - split.
      + apply NoDup_app; [exact Hnd | repeat constructor; intros [] |].
        intros x Hx [Hc | []]. subst x.
        apply registered_In in Hx. rewrite Hx in E. discriminate E.
      + apply in_or_app. right. left. reflexivity. }
  destruct Hls as (Hnd1 & Hin1).
  assert (Hone : count_occ Nat.eq_dec (listeners (data h1)) cb = 1%nat)
    by (apply NoDup_count_occ'; assumption).
  split; [exact Hnd1|]. split; [exact Hone|]. split.
  - unfold async_added_to_hass at 1. cbn [data listeners].
    apply registered_In in Hin1. rewrite Hin1. reflexivity.
  - intros payload loop_time.
    rewrite handle_presence_invocations. exact Hone.
Qed.

Lemma presence_entity_registers_once_witness :
  listeners (data (async_added_to_hass 9%nat (book_host [7%nat; 9%nat])))
  = [7%nat; 9%nat]
  /\ listeners (data (async_added_to_hass 9%nat (book_host [7%nat])))
     = [7%nat; 9%nat]
  /\ invocations (async_added_to_hass 9%nat (book_host [7%nat]))
       (_handle_presence "on" 1%float
          (async_added_to_hass 9%nat (book_host [7%nat]))) 9%nat
     = 1%nat.
Proof.
  assert (Hnd : NoDup (listeners (data (book_host [7%nat]))))
    by (repeat constructor; cbn; intuition discriminate).
  destruct (presence_entity_registers_once 9%nat (book_host [7%nat]) Hnd)
    as (_ & _ & _ & Hcall).
  split; [reflexivity|]. split; [reflexivity|].
  apply Hcall.
Defined.

(** X18: the temperature entity's setup appends its listener unguarded:
    every further call registers the listener once more, and every message
    that notifies then calls it once more. *)
Theorem sensor_setup_registers_again :
  forall (cb : callback) (h : hass) (payload : string) (loop_time : float),
    let h1 := sensor_async_setup_entry cb h in
    count_occ Nat.eq_dec (listeners (data h1)) cb
    = S (count_occ Nat.eq_dec (listeners (data h)) cb)
    /\ invocations h1 (_handle_presence payload loop_time h1) cb
       = S (invocations h (_handle_presence payload loop_time h) cb).
Proof.
  intros cb h payload loop_time h1.
  assert (H : count_occ Nat.eq_dec (listeners (data h1)) cb
              = S (count_occ Nat.eq_dec (listeners (data h)) cb)).
  { subst h1. unfold sensor_async_setup_entry. cbn [data listeners].
    rewrite count_occ_snoc. destruct (Nat.eq_dec cb cb) as [_ | Hne];
      [apply Nat.add_1_r | contradiction Hne; reflexivity]. }
  split; [exact H|]. rewrite !handle_presence_invocations. exact H.
Qed.

(** ** A device that keeps reporting presence *)

(** X19: a device that goes on reporting ON is shown OFF by the first ON
    report that arrives once the hold time has elapsed, and ON again by
    the next ON report at least the debounce time later, which restarts
    both windows. *)
Theorem steady_on_reports_flap :
  forall (f : filters) (t1 t2 : float),
    presence_state f = true ->
    PyNum.float_ge_int (PrimFloat.sub t1 (presence_last_on_ms f))
      (presence_hold_ms f) = true ->
    PyNum.float_ge_int (PrimFloat.sub t2 t1) (presence_debounce_ms f) = true ->
    let f1 := presence_update true t1 f in
    let f2 := presence_update true t2 f1 in
    presence_state f1 = false
    /\ presence_last_change_ms f1 = t1
    /\ presence_state f2 = true
    /\ presence_last_on_ms f2 = t2
    /\ presence_last_change_ms f2 = t2.
Proof.
  intros f t1 t2 Hon Hhold Hdeb f1 f2.
  assert (E1 : f1 = set_presence_last_change_ms t1 (set_presence_state false f)).
  { subst f1. rewrite <- Hon at 1. rewrite presence_update_same, Hon, Hhold.
    reflexivity. }
  assert (Hne : true <> presence_state f1) by (rewrite E1; discriminate).
  assert (Hge : PyNum.float_ge_int
                  (PrimFloat.sub t2 (presence_last_change_ms f1))
                  (presence_debounce_ms f1) = true)
    by (rewrite E1; exact Hdeb).
  destruct (presence_update_accept f1 true t2 Hne Hge) as (H1 & H2 & H3).
  rewrite E1 at 1 2. cbn [presence_state presence_last_change_ms
    set_presence_last_change_ms set_presence_state].
  repeat split; assumption.
Qed.

Lemma steady_on_reports_flap_witness :
  let f := presence_update true 1000%float book_filters in
  presence_state f = true
  /\ presence_state (presence_update true 6000%float f) = false
  /\ presence_state
       (presence_update true 6300%float (presence_update true 6000%float f))
     = true.
Proof.
  intros f.
  assert (Hon : presence_state f = true) by reflexivity.
  destruct (steady_on_reports_flap f 6000%float 6300%float Hon)
    as (H1 & _ & H2 & _); [vm_compute; reflexivity | vm_compute; reflexivity |].
  split; [exact Hon|]. split; [exact H1 | exact H2].
Defined.

(** ** Entries side by side *)

Lemma domain_get_set_same (dom : domain) (entry_id : string)
    (st : entry_state) :
  domain_get (domain_set dom entry_id st) entry_id = Some st.
Proof.
  induction dom as [| [k st'] r IH]; cbn.
  - rewrite String.eqb_refl. reflexivity.
  - destruct (String.eqb entry_id k) eqn:E; cbn; rewrite E;
      [reflexivity | exact IH].
Qed.

Lemma domain_get_set_other (dom : domain) (entry_id other : string)
    (st : entry_state) :
  other <> entry_id ->
  domain_get (domain_set dom entry_id st) other = domain_get dom other.
Proof.
  intros Hne. induction dom as [| [k st'] r IH]; cbn.
  - destruct (String.eqb other entry_id) eqn:E; [| reflexivity].
    apply String.eqb_eq in E. contradiction.
  - destruct (String.eqb entry_id k) eqn:E; cbn.
    + apply String.eqb_eq in E. subst k.
      destruct (String.eqb other entry_id) eqn:E'; [| reflexivity].
      apply String.eqb_eq in E'. contradiction.
    + rewrite IH. reflexivity.
Qed.

Lemma domain_get_pop_same (dom : domain) (entry_id : string) :
  domain_get (domain_pop dom entry_id) entry_id = None.
Proof.
  induction dom as [| [k st] r IH]; cbn; [reflexivity|].
  destruct (String.eqb entry_id k) eqn:E; cbn; [| rewrite E]; exact IH.
Qed.

Lemma domain_get_pop_other (dom : domain) (entry_id other : string) :
  other <> entry_id ->
  domain_get (domain_pop dom entry_id) other = domain_get dom other.
Proof.
  intros Hne. induction dom as [| [k st] r IH]; cbn; [reflexivity|].
  destruct (String.eqb entry_id k) eqn:E; cbn.
  - apply String.eqb_eq in E. subst k.
    destruct (String.eqb other entry_id) eqn:E'; [| exact IH].
    apply String.eqb_eq in E'. contradiction.
  - rewrite IH. reflexivity.
Qed.

(** X20: the entries do not interfere: a message for one entry, whatever
    it does there, leaves the state of every other entry as it was. *)
Theorem message_leaves_other_entries_alone :
  forall (float_of_str : string -> option float)
         (json_loads : string -> option json) (temp_json_path : string)
         (entry_id other : string) (m : message) (c c' : core),
    other <> entry_id ->
    deliver_to float_of_str json_loads temp_json_path entry_id m c = Done c' ->
    domain_get (entries c') other = domain_get (entries c) other.
Proof.
  intros float_of_str json_loads temp_json_path entry_id other m c c' Hne.
  unfold deliver_to.
  destruct (domain_get (entries c) entry_id) as [st |]; [| discriminate].
  destruct (deliver _ _ _ m _) as [h | e]; [| discriminate].
  intros H. injection H as <-. cbn [entries].
  apply domain_get_set_other. exact Hne.
Qed.

Lemma message_leaves_other_entries_alone_witness :
  exists c' : core,
    deliver_to PyModel.float_of_str PyModel.json_loads EmptyString "a"
      (Presence "on" 1%float)
      {| entries := [("a", data (book_host [7%nat]));
                     ("b", data (book_host [9%nat]))]%string;
         calls := [] |}
    = Done c'
    /\ domain_get (entries c') "b" = Some (data (book_host [9%nat])).
Proof.
  eexists. split; [reflexivity|].
  rewrite (message_leaves_other_entries_alone PyModel.float_of_str
             PyModel.json_loads EmptyString "a" "b" (Presence "on" 1%float)
             {| entries := [("a", data (book_host [7%nat]));
                            ("b", data (book_host [9%nat]))]%string;
                calls := [] |});
    [reflexivity | discriminate | reflexivity].
Defined.

(** X21: once an entry is unloaded its state is gone: a message that still
    reaches one of its handlers raises [KeyError]; an unload the platforms
    refuse changes nothing, and the other entries are kept either way. *)
Theorem message_after_unload_raises_key_error :
  forall (float_of_str : string -> option float)
         (json_loads : string -> option json) (temp_json_path : string)
         (entry_id : string) (m : message) (c : core),
    deliver_to float_of_str json_loads temp_json_path entry_id m
      (fst (async_unload_entry true entry_id c))
    = Failed KeyError
    /\ async_unload_entry false entry_id c = (c, false)
    /\ (forall other : string,
          other <> entry_id ->
          domain_get (entries (fst (async_unload_entry true entry_id c))) other
          = domain_get (entries c) other).
Proof.
  intros float_of_str json_loads temp_json_path entry_id m c.
  split; [| split].
  - unfold deliver_to, async_unload_entry. cbn [fst entries].
    rewrite domain_get_pop_same. reflexivity.
  - reflexivity.
  - intros other Hne. unfold async_unload_entry. cbn [fst entries].
    apply domain_get_pop_other. exact Hne.
Qed.

(** X22: setting an entry up stores a fresh state under its id, over
    whatever was stored there: presence OFF with both stamps at zero, no
    sample, no average and no listener; a reload forgets the samples, the
    presence state and the registered listeners. *)
Theorem setup_stores_a_fresh_state :
  forall (entry_id : string) (d : entry_data) (c c' : core),
    setup_entry entry_id d c = Done c' ->
    exists st : entry_state,
      domain_get (entries c') entry_id = Some st
      /\ async_setup_entry d = Returned st
      /\ presence_of {| data := st; called := [] |} = (false, 0%float, 0%float)
      /\ temperature_of {| data := st; called := [] |}
         = ({| maxlen := Z.to_nat (temp_window (st_filters st)); items := [] |},
            None)
      /\ listeners st = []
      /\ calls c' = calls c.
Proof.
  intros entry_id d c c'. unfold setup_entry.
  destruct (async_setup_entry d) as [st | e] eqn:E; [| discriminate].
  intros H. injection H as <-. exists st. cbn [entries calls].
  split; [apply domain_get_set_same|]. split; [reflexivity|].
  unfold async_setup_entry in E.
  destruct (get (CONF_TEMP_WINDOW d) DEFAULT_TEMP_WINDOW <? 0); [discriminate|].
  injection E as <-. repeat split.
Qed.

Lemma setup_stores_a_fresh_state_witness :
  exists c' : core,
    setup_entry "a" book_entry
      {| entries := [("a", data (notify (book_host [7%nat])))]%string;
         calls := [7%nat] |}
    = Done c'
    /\ domain_get (entries c') "a" = Some (data (book_host [])).
Proof.
  eexists. split; [reflexivity|].
  destruct (setup_stores_a_fresh_state "a" book_entry
              {| entries := [("a", data (notify (book_host [7%nat])))]%string;
                 calls := [7%nat] |} _ eq_refl)
    as (st & Hget & Hst & _).
  rewrite Hget. f_equal. injection Hst as <-. reflexivity.
Defined.

(** ** What the average remembers *)

Lemma recent_nil_iff {A : Type} (w : nat) (l : list A) :
  (1 <= w)%nat -> (recent w l = [] <-> l = []).
Proof.
  intros Hw. split.
  - intros H. apply (f_equal (@List.length A)) in H.
    rewrite recent_length in H.
    destruct l; [reflexivity | cbn [List.length] in H; lia].
  - intros ->. reflexivity.
Qed.

(** X23: the samples and the average keep no trace of anything but the
    last [temp_window] temperatures decoded: two runs of messages from the
    same started entry whose decoded temperatures end with the same
    [temp_window] values leave the same deque and the same average. *)
Theorem average_forgets_old_samples :
  forall (float_of_str : string -> option float)
         (json_loads : string -> option json) (temp_json_path : string)
         (d : entry_data) (ls : list callback) (h0 : hass)
         (ms1 ms2 : list message),
    started d ls = Returned h0 ->
    1 <= temp_window (st_filters (data h0)) ->
    recent (Z.to_nat (temp_window (st_filters (data h0))))
      (readings float_of_str json_loads temp_json_path ms1)
    = recent (Z.to_nat (temp_window (st_filters (data h0))))
        (readings float_of_str json_loads temp_json_path ms2) ->
    exists h1 h2 : hass,
      deliver_all float_of_str json_loads temp_json_path ms1 h0 = Returned h1
      /\ deliver_all float_of_str json_loads temp_json_path ms2 h0
         = Returned h2
      /\ temperature_of h1 = temperature_of h2.
Proof.
  intros float_of_str json_loads temp_json_path d ls h0 ms1 ms2 Hstart Hw Hrec.
  destruct (started_window d ls h0 Hstart) as (Hempty & Hcap & Havg & _).
  set (w := Z.to_nat (temp_window (st_filters (data h0)))) in *.
  assert (Hw1 : (1 <= w)%nat) by (subst w; lia).
  destruct (run_window float_of_str json_loads temp_json_path w ms1 Hw1 [] h0
              Hcap Hempty) as (h1 & Hrun1 & Hc1 & Hi1 & Ha1).
  destruct (run_window float_of_str json_loads temp_json_path w ms2 Hw1 [] h0
              Hcap Hempty) as (h2 & Hrun2 & Hc2 & Hi2 & Ha2).
  exists h1, h2. split; [exact Hrun1|]. split; [exact Hrun2|].
  cbn [app] in Hi1, Hi2, Ha1, Ha2.
  unfold temperature_of. unfold samples_of in Hi1, Hi2.
  unfold capacity_of in Hc1, Hc2.
  assert (Hd : temp_samples (st_filters (data h1))
               = temp_samples (st_filters (data h2))).
  { destruct (temp_samples (st_filters (data h1))) as [m1 i1].
    destruct (temp_samples (st_filters (data h2))) as [m2 i2].
    cbn in *. subst m1 m2 i1 i2. rewrite Hrec. reflexivity. }
  rewrite Hd, Ha1, Ha2, Hrec. f_equal.
  destruct (readings float_of_str json_loads temp_json_path ms1) as [| a l1] eqn:E1;
    destruct (readings float_of_str json_loads temp_json_path ms2) as [| b l2] eqn:E2;
    try reflexivity.
  - symmetry in Hrec. apply (recent_nil_iff w (b :: l2) Hw1) in Hrec.
    discriminate Hrec.
  - apply (recent_nil_iff w (a :: l1) Hw1) in Hrec. discriminate Hrec.
Qed.

Lemma average_forgets_old_samples_witness :
  exists h1 h2 : hass,
    deliver_all PyModel.float_of_str PyModel.json_loads EmptyString
      [Temperature "99"; Temperature "1"; Temperature "2"; Temperature "3";
       Temperature "4"; Temperature "5"] (book_host [7%nat]) = Returned h1
    /\ deliver_all PyModel.float_of_str PyModel.json_loads EmptyString
         [Temperature "1"; Presence "on" 1%float; Temperature "2";
          Temperature "3"; Temperature "4"; Temperature "5"]
         (book_host [7%nat]) = Returned h2
    /\ temperature_of h1 = temperature_of h2.
Proof.
  apply (average_forgets_old_samples PyModel.float_of_str PyModel.json_loads
           EmptyString book_entry [7%nat] (book_host [7%nat])).
  - apply started_book.
  - vm_compute. discriminate.
  - vm_compute. reflexivity.
Defined.
